(** * The payment-service examples of [solid_principles], embedded in Rocq

    The repository holds three self-contained variants of one toy payment
    service: [isp/after.py], [liskov/after.py] and [open_close/after.py].
    Each builds a facade [PaymentService] out of small collaborators
    (validators, a charge executor talking to Stripe, a notifier, a
    transaction logger).

    The code is effectful Python: it prints, appends to [transactions.log],
    calls the Stripe client, draws UUIDs and raises exceptions.  It is
    embedded here as functions in a reader/state/exception monad [M]:
    the reader part [Env] holds what the outside world answers (gateway
    replies, environment variables, whether the log file can be opened, the
    UUID source), the state part [World] what the program has done to it. *)

From Stdlib Require Import String Ascii List ZArith Bool Lia.
From Stdlib Require Import DecimalString DecimalNat.
Import ListNotations.
Open Scope string_scope.

Set Implicit Arguments.

(** ** Python values and conventions *)

(** [str(n)] for a Python [int]. *)
Definition str_int (z : Z) : string := NilZero.string_of_int (Z.to_int z).

(** [str(x)] (as an f-string or [print] renders it) for an [Optional[str]]. *)
Definition str_opt (o : option string) : string :=
  match o with
  | None => "None"
  | Some s => s
  end.

(** Truth value of a [str]: only the empty string is falsy. *)
Definition truthy_str (s : string) : bool := negb (s =? "").

(** Truth value of an [Optional[str]]: [None] and [""] are falsy. *)
Definition truthy_opt_str (o : option string) : bool :=
  match o with
  | None => false
  | Some s => truthy_str s
  end.

(** Truth value of an [int]: only [0] is falsy. *)
Definition truthy_int (z : Z) : bool := negb (z =? 0)%Z.

(** ** Exceptions

    The classes the three files raise or can meet, with the part of Python's
    hierarchy that [except Exception] and [except StripeError] test.
    [KeyboardInterrupt] stands for the exceptions that derive from
    [BaseException] only. *)

Inductive exn_class : Type :=
| BaseException
| KeyboardInterrupt
| Exception
| ValueError
| TypeError
| AttributeError
| IndexError
| OSError
| StripeError.

Definition exn_class_eqb (c d : exn_class) : bool :=
  match c, d with
  | BaseException, BaseException
  | KeyboardInterrupt, KeyboardInterrupt
  | Exception, Exception
  | ValueError, ValueError
  | TypeError, TypeError
  | AttributeError, AttributeError
  | IndexError, IndexError
  | OSError, OSError
  | StripeError, StripeError => true
  | _, _ => false
  end.

(** [issubclass c d]. *)
Definition issubclass (c d : exn_class) : bool :=
  match d with
  | BaseException => true
  | Exception =>
      match c with
      | BaseException | KeyboardInterrupt => false
      | _ => true
      end
  | _ => exn_class_eqb c d
  end.

(** An exception object: its class and what [str(e)] gives. *)
Record exn : Type := mk_exn { exn_class_of : exn_class; exn_str : string }.

Definition isinstance (e : exn) (c : exn_class) : bool :=
  issubclass (exn_class_of e) c.

Arguments isinstance : simpl never.

Inductive outcome (A : Type) : Type :=
| Return (a : A)
| Raise (e : exn).

Arguments Return {A} a.
Arguments Raise {A} e.

(** ** Data model ([isp/after.py], lines 16-37) *)

Record ContactInfo : Type := mk_ContactInfo {
  email : option string;
  phone : option string
}.

(** [contact_info] is declared as a [ContactInfo]; the validator nevertheless
    guards against a missing one, so the field is optional here.  The [id]
    field exists in the ISP variant only and is never read. *)
Record CustomerData : Type := mk_CustomerData {
  name : string;
  contact_info : option ContactInfo;
  id : option string
}.

Record PaymentData : Type := mk_PaymentData {
  amount : Z;
  source : string
}.

Record PaymentResponse : Type := mk_PaymentResponse {
  status : string;
  response_amount : Z;
  response_id : option string;
  message : option string
}.

(** ** The Stripe client, as the code uses it *)

(** Requests issued to the gateway. *)
Inductive StripeCall : Type :=
| Charge_create (amount : Z) (currency source description : string)
| Customer_create (email : option string)
| PaymentMethod_attach (payment_method_id customer : string)
| Customer_modify (customer_id default_payment_method : string)
| Subscription_create (customer : string) (price : option string).

(** The parts of the gateway's records that the code reads. *)
Record Charge : Type := mk_Charge {
  charge_status : string;
  charge_amount : Z;
  charge_id : string
}.

Record Customer : Type := mk_Customer { customer_id : string }.

Record PaymentMethod : Type := mk_PaymentMethod { payment_method_id : string }.

(** [subscription_items] lists [items.data[i].price.unit_amount]. *)
Record Subscription : Type := mk_Subscription {
  subscription_status : string;
  subscription_id : string;
  subscription_items : list Z
}.

(** ** World and environment *)

Record World : Type := mk_World {
  stdout : list string;            (* lines printed so far *)
  transactions_log : list string;  (* lines appended to transactions.log *)
  stripe_api_key : option string;  (* the module-level [stripe.api_key] *)
  stripe_calls : list StripeCall;  (* requests sent to the gateway *)
  uuid_draws : nat                 (* number of [uuid.uuid4()] calls so far *)
}.

Record Env : Type := mk_Env {
  getenv : string -> option string;
  gw_Charge_create : World -> Z -> string -> string -> string -> outcome Charge;
  gw_Customer_create : World -> option string -> outcome Customer;
  gw_PaymentMethod_attach : World -> string -> string -> outcome PaymentMethod;
  gw_Customer_modify : World -> string -> string -> outcome unit;
  gw_Subscription_create : World -> string -> option string -> outcome Subscription;
  (* [Some e]: [open("transactions.log", "a")] raises [e] *)
  open_append : World -> option exn;
  (* the value of the n-th [uuid.uuid4()], rendered by [str] *)
  uuid_source : nat -> string
}.

Definition set_stdout (w : World) (l : list string) : World :=
  mk_World l (transactions_log w) (stripe_api_key w) (stripe_calls w) (uuid_draws w).

Definition set_transactions_log (w : World) (l : list string) : World :=
  mk_World (stdout w) l (stripe_api_key w) (stripe_calls w) (uuid_draws w).

Definition set_stripe_api_key (w : World) (k : option string) : World :=
  mk_World (stdout w) (transactions_log w) k (stripe_calls w) (uuid_draws w).

Definition set_stripe_calls (w : World) (l : list StripeCall) : World :=
  mk_World (stdout w) (transactions_log w) (stripe_api_key w) l (uuid_draws w).

Definition set_uuid_draws (w : World) (n : nat) : World :=
  mk_World (stdout w) (transactions_log w) (stripe_api_key w) (stripe_calls w) n.

(** ** The monad of Python statements *)

Definition M (A : Type) : Type := Env -> World -> outcome A * World.

Definition ret {A} (a : A) : M A := fun _ w => (Return a, w).

Definition raise {A} (e : exn) : M A := fun _ w => (Raise e, w).

Definition bind {A B} (m : M A) (k : A -> M B) : M B :=
  fun env w =>
    match m env w with
    | (Return a, w') => k a env w'
    | (Raise e, w') => (Raise e, w')
    end.

Declare Scope py_scope.
Delimit Scope py_scope with py.
Notation "x <- m ;; k" := (bind m (fun x => k))
  (at level 61, m at next level, right associativity) : py_scope.
Notation "m ;; k" := (bind m (fun _ => k))
  (at level 61, right associativity) : py_scope.
Open Scope py_scope.

(** [try: body  except cls as e: handler e]. *)
Definition try_except {A} (body : M A) (cls : exn_class) (handler : exn -> M A) : M A :=
  fun env w =>
    match body env w with
    | (Return a, w') => (Return a, w')
    | (Raise e, w') =>
        if isinstance e cls then handler e env w' else (Raise e, w')
    end.

(** The world once the lines [l] have been printed. *)
Definition printed (w : World) (l : list string) : World :=
  set_stdout w (stdout w ++ l).

(** [print(s)]: one more line on standard output. *)
Definition print (s : string) : M unit :=
  fun _ w => (Return tt, printed w [s]).

(** [os.getenv(k)]. *)
Definition os_getenv (k : string) : M (option string) :=
  fun env w => (Return (getenv env k), w).

(** [stripe.api_key = k]. *)
Definition set_api_key (k : option string) : M unit :=
  fun _ w => (Return tt, set_stripe_api_key w k).

(** The world once [call] has gone out to the gateway. *)
Definition sent (w : World) (call : StripeCall) : World :=
  set_stripe_calls w (stripe_calls w ++ [call]).

(** A gateway operation: the request is recorded, the environment answers. *)
Definition gateway {A} (call : StripeCall) (answer : Env -> World -> outcome A) : M A :=
  fun env w => (answer env w, sent w call).

(** [str(uuid.uuid4())]. *)
Definition uuid4_str : M string :=
  fun env w => (Return (uuid_source env (uuid_draws w)), set_uuid_draws w (S (uuid_draws w))).

(** The world once the lines [l] have been appended to the log file. *)
Definition logged (w : World) (l : list string) : World :=
  set_transactions_log w (transactions_log w ++ l).

(** [log_file.write(line + "\n")] on the sink opened in append mode. *)
Definition write_log (line : string) : M unit :=
  fun _ w => (Return tt, logged w [line]).

(** [with open("transactions.log", "a") as log_file: body]. *)
Definition with_open_append {A} (body : M A) : M A :=
  fun env w =>
    match open_append env w with
    | Some e => (Raise e, w)
    | None => body env w
    end.

(** ** Dynamically typed call arguments

    [LogTransaction.log_transaction] is called once with two positional
    arguments and with a string where a customer record is expected
    ([isp/after.py], line 240), so its call sites pass untyped values. *)

Inductive pyval : Type :=
| PyNone
| PyStr (s : string)
| PyCustomer (c : CustomerData)
| PyPayment (p : PaymentData)
| PyResponse (r : PaymentResponse).

Definition type_name (v : pyval) : string :=
  match v with
  | PyNone => "NoneType"
  | PyStr _ => "str"
  | PyCustomer _ => "CustomerData"
  | PyPayment _ => "PaymentData"
  | PyResponse _ => "PaymentResponse"
  end.

(** The attributes the loggers read, and the scalars they hold. *)
Inductive attr : Type := a_name | a_amount | a_id | a_status.

Definition attr_name (a : attr) : string :=
  match a with
  | a_name => "name"
  | a_amount => "amount"
  | a_id => "id"
  | a_status => "status"
  end.

Inductive atom : Type :=
| ANone
| AStr (s : string)
| AInt (z : Z).

Definition atom_of_opt (o : option string) : atom :=
  match o with
  | None => ANone
  | Some s => AStr s
  end.

(** How an f-string renders a scalar. *)
Definition format (x : atom) : string :=
  match x with
  | ANone => "None"
  | AStr s => s
  | AInt z => str_int z
  end.

Definition no_attribute {A} (v : pyval) (a : attr) : M A :=
  raise (mk_exn AttributeError
           ("'" ++ type_name v ++ "' object has no attribute '" ++ attr_name a ++ "'")).

(** [v.a]. *)
Definition getattr (v : pyval) (a : attr) : M atom :=
  match v, a with
  | PyCustomer c, a_name => ret (AStr (name c))
  | PyCustomer c, a_id => ret (atom_of_opt (id c))
  | PyPayment p, a_amount => ret (AInt (amount p))
  | PyResponse r, a_status => ret (AStr (status r))
  | PyResponse r, a_amount => ret (AInt (response_amount r))
  | PyResponse r, a_id => ret (atom_of_opt (response_id r))
  | _, _ => no_attribute v a
  end.

(** The [TypeError] of a call of a three-parameter method [qualname] with
    [given] positional arguments (besides [self]). *)
Definition arity_error (qualname : string) (given : nat) : exn :=
  mk_exn TypeError
    (qualname ++
     match given with
     | 0%nat => "() missing 3 required positional arguments: 'customer_data', 'payment_data', and 'charge'"
     | 1%nat => "() missing 2 required positional arguments: 'payment_data' and 'charge'"
     | 2%nat => "() missing 1 required positional argument: 'charge'"
     | _ => "() takes 4 positional arguments but " ++ str_int (Z.of_nat (S given)) ++ " were given"
     end).

(** ** Reading the contact data

    [customer_data.contact_info.email] and [.phone]; on a missing
    [contact_info] the attribute access fails. *)

Definition contact_email (customer_data : CustomerData) : M (option string) :=
  match contact_info customer_data with
  | Some contact => ret (email contact)
  | None => raise (mk_exn AttributeError "'NoneType' object has no attribute 'email'")
  end.

Definition contact_phone (customer_data : CustomerData) : M (option string) :=
  match contact_info customer_data with
  | Some contact => ret (phone contact)
  | None => raise (mk_exn AttributeError "'NoneType' object has no attribute 'phone'")
  end.

(** ** The validators

    [ValidateData] and [ValidatePaymentData] are the same text in the three
    files ([isp/after.py] 40-64, [liskov/after.py] 26-46,
    [open_close/after.py] 26-46). *)

Module ValidateData.

Definition validate_customer_data (customer_data : CustomerData) : M unit :=
  if negb (truthy_str (name customer_data)) then
    print "Invalid customer data: missing name" ;;
    raise (mk_exn ValueError "Invalid customer data: missing name")
  else
    match contact_info customer_data with
    | None =>
        print "Invalid customer data: missing contact info" ;;
        raise (mk_exn ValueError "Invalid customer data: missing contact info")
    | Some contact =>
        if negb (truthy_opt_str (email contact)) && negb (truthy_opt_str (phone contact)) then
          print "Invalid customer data: missing email or phone" ;;
          raise (mk_exn ValueError "Invalid customer data: missing email or phone")
        else ret tt
    end.

End ValidateData.

Module ValidatePaymentData.

Definition validate_payment_data (payment_data : PaymentData) : M bool :=
  if negb (truthy_int (amount payment_data)) || negb (truthy_str (source payment_data)) then
    print "Invalid payment data" ;;
    raise (mk_exn ValueError "Invalid payment data")
  else ret true.

End ValidatePaymentData.

(** * Interface-segregation variant ([isp/after.py]) *)

Module ISP.

(** The protocols: one record of methods each. *)
Record Notify : Type := mk_Notify {
  notify_customer : CustomerData -> M unit
}.

Record PaymentProcessorProtocol : Type := mk_PaymentProcessorProtocol {
  process_transaction : CustomerData -> PaymentData -> M PaymentResponse
}.

Record RefundPaymentProtocol : Type := mk_RefundPaymentProtocol {
  refund_transaction : string -> M PaymentResponse
}.

Record RecurrencePaymentProtocol : Type := mk_RecurrencePaymentProtocol {
  setup_recurrence : CustomerData -> PaymentData -> M PaymentResponse
}.

Module EmailNotify.

(** The [MIMEText] message is built and dropped; only the [print] is
    observable. *)
Definition notify_customer (customer_data : CustomerData) : M unit :=
  to <- contact_email customer_data ;;
  to' <- contact_email customer_data ;;
  print ("Email sent to " ++ str_opt to').

Definition new : Notify := mk_Notify notify_customer.

End EmailNotify.

Module SMSNotify.

Definition notify_customer (customer_data : CustomerData) : M unit :=
  phone_number <- contact_phone customer_data ;;
  let sms_gateway := "the custom SMS Gateway" in
  print ("send the sms using " ++ sms_gateway ++ ": SMS sent to "
         ++ str_opt phone_number ++ ": Thank you for your payment.").

Definition new : Notify := mk_Notify notify_customer.

End SMSNotify.

Module LogTransaction.

Definition log_transaction (args : list pyval) : M unit :=
  match args with
  | [customer_data; payment_data; charge] =>
      with_open_append
        (n <- getattr customer_data a_name ;;
         a <- getattr payment_data a_amount ;;
         write_log (format n ++ " paid " ++ format a) ;;
         i <- getattr charge a_id ;;
         write_log ("Transaction ID: " ++ format i) ;;
         s <- getattr charge a_status ;;
         write_log ("Status: " ++ format s))
  | _ => raise (arity_error "LogTransaction.log_transaction" (length args))
  end.

End LogTransaction.

Module ProcessPayment.

Definition process_transaction (customer_data : CustomerData) (payment_data : PaymentData)
  : M PaymentResponse :=
  key <- os_getenv "STRIPE_SECRET_KEY" ;;
  set_api_key key ;;
  try_except
    (let description := "Charge for " ++ name customer_data in
     charge <- gateway
                 (Charge_create (amount payment_data) "usd" (source payment_data) description)
                 (fun env w =>
                    gw_Charge_create env w (amount payment_data) "usd"
                      (source payment_data) description) ;;
     print "Payment successful" ;;
     ret (mk_PaymentResponse (charge_status charge) (charge_amount charge)
            (Some (charge_id charge)) (Some "Payment successful")))
    StripeError
    (fun e =>
       print ("Payment failed: " ++ exn_str e) ;;
       ret (mk_PaymentResponse "payment_failed" 0 None (Some (exn_str e)))).

Definition refund_transaction (transaction_id : string) : M PaymentResponse :=
  print "Refunding payment" ;;
  ret (mk_PaymentResponse "payment_refunded" 0 (Some transaction_id)
         (Some "Payment refunded successfully")).

Definition __attach_payment_method (customer_id payment_method_id : string)
  : M PaymentMethod :=
  gateway (PaymentMethod_attach payment_method_id customer_id)
    (fun env w => gw_PaymentMethod_attach env w payment_method_id customer_id).

Definition __set_default_payment_method (customer_id payment_method_id : string)
  : M unit :=
  gateway (Customer_modify customer_id payment_method_id)
    (fun env w => gw_Customer_modify env w customer_id payment_method_id).

(** [subscription["items"]["data"][0]["price"]["unit_amount"]]. *)
Definition first_unit_amount (subscription : Subscription) : M Z :=
  match subscription_items subscription with
  | unit_amount :: _ => ret unit_amount
  | [] => raise (mk_exn IndexError "list index out of range")
  end.

Definition setup_recurrence (customer_data : CustomerData) (payment_data : PaymentData)
  : M PaymentResponse :=
  key <- os_getenv "STRIPE_SECRET_KEY" ;;
  set_api_key key ;;
  price_id <- os_getenv "STRIPE_PRICE_ID" ;;
  try_except
    (to <- contact_email customer_data ;;
     customer <- gateway (Customer_create to)
                   (fun env w => gw_Customer_create env w to) ;;
     payment_method <- __attach_payment_method (customer_id customer) (source payment_data) ;;
     __set_default_payment_method (customer_id customer) (payment_method_id payment_method) ;;
     subscription <- gateway (Subscription_create (customer_id customer) price_id)
                       (fun env w =>
                          gw_Subscription_create env w (customer_id customer) price_id) ;;
     print "Recurrence payment successful" ;;
     amount <- first_unit_amount subscription ;;
     ret (mk_PaymentResponse (subscription_status subscription) amount
            (Some (subscription_id subscription)) (Some "Recurrence payment successful")))
    StripeError
    (fun e =>
       print ("Recurrence payment failed: " ++ exn_str e) ;;
       ret (mk_PaymentResponse "recurrence_payment_failed" 0 None (Some (exn_str e)))).

Definition as_processor : PaymentProcessorProtocol :=
  mk_PaymentProcessorProtocol process_transaction.

Definition as_refund : RefundPaymentProtocol :=
  mk_RefundPaymentProtocol refund_transaction.

Definition as_recurrence : RecurrencePaymentProtocol :=
  mk_RecurrencePaymentProtocol setup_recurrence.

End ProcessPayment.

(** The class names its method [process_payments], not [process_transaction];
    the demonstration block calls it directly (line 278). *)
Module OffLinePaymentProcessor.

Definition process_payments (customer_data : CustomerData) (payment_data : PaymentData)
  : M PaymentResponse :=
  print "Offline payment processed successfully" ;;
  fresh <- uuid4_str ;;
  ret (mk_PaymentResponse "offline_payment_processed" (amount payment_data)
         (Some fresh) (Some "Offline payment processed successfully")).

End OffLinePaymentProcessor.

(** The facade.  [validate_data], [validate_payment_data] and
    [log_transaction] are class attributes holding the fixed
    collaborators; the other four are constructor fields. *)
Record PaymentService : Type := mk_PaymentService {
  process_payment : PaymentProcessorProtocol;
  notify : Notify;
  refund_payment_processor : option RefundPaymentProtocol;
  recurrence_payment_processor : option RecurrencePaymentProtocol
}.

(** [PaymentService()] with the field defaults. *)
Definition default_service : PaymentService :=
  mk_PaymentService ProcessPayment.as_processor EmailNotify.new None None.

Definition process_payments (self : PaymentService)
    (payment_data : PaymentData) (customer_data : CustomerData) : M PaymentResponse :=
  try_except
    (ValidateData.validate_customer_data customer_data ;;
     ValidatePaymentData.validate_payment_data payment_data ;;
     charge <- process_transaction (process_payment self) customer_data payment_data ;;
     notify_customer (notify self) customer_data ;;
     LogTransaction.log_transaction
       [PyCustomer customer_data; PyPayment payment_data; PyResponse charge] ;;
     ret charge)
    Exception
    (fun e =>
       print ("Error processing payment: " ++ exn_str e) ;;
       raise e).

Definition refund_payment (self : PaymentService) (transaction_id : string)
  : M PaymentResponse :=
  match refund_payment_processor self with
  | None => raise (mk_exn Exception "Refund payment processor not supported")
  | Some processor =>
      response <- refund_transaction processor transaction_id ;;
      LogTransaction.log_transaction [PyStr transaction_id; PyResponse response] ;;
      ret response
  end.

Definition setup_recurrence_payment (self : PaymentService)
    (payment_data : PaymentData) (customer_data : CustomerData) : M PaymentResponse :=
  match recurrence_payment_processor self with
  | None => raise (mk_exn Exception "Recurrence payment processor not supported")
  | Some processor =>
      response <- setup_recurrence processor customer_data payment_data ;;
      LogTransaction.log_transaction
        [PyCustomer customer_data; PyPayment payment_data; PyResponse response] ;;
      ret response
  end.

End ISP.

(** * Liskov-substitution variant ([liskov/after.py])

    The data classes are those above without the [id] field, which this
    file never reads. *)

Module Liskov.

Record Notify : Type := mk_Notify {
  notify_customer : CustomerData -> M unit
}.

(** The protocol promises the gateway's own [Charge] object. *)
Record PaymentProcessor : Type := mk_PaymentProcessor {
  process_transaction : CustomerData -> PaymentData -> M Charge
}.

Module EmailNotify.

Definition notify_customer (customer_data : CustomerData) : M unit :=
  to <- contact_email customer_data ;;
  to' <- contact_email customer_data ;;
  print ("Email sent to " ++ str_opt to').

Definition new : Notify := mk_Notify notify_customer.

End EmailNotify.

Module SMSNotify.

Definition notify_customer (customer_data : CustomerData) : M unit :=
  phone_number <- contact_phone customer_data ;;
  let sms_gateway := "the custom SMS Gateway" in
  print ("send the sms using " ++ sms_gateway ++ ": SMS sent to "
         ++ str_opt phone_number ++ ": Thank you for your payment.").

Definition new : Notify := mk_Notify notify_customer.

End SMSNotify.

Module LogTransaction.

Definition log_transaction (customer_data : CustomerData) (payment_data : PaymentData)
    (charge : Charge) : M unit :=
  with_open_append
    (write_log (name customer_data ++ " paid " ++ str_int (amount payment_data)) ;;
     write_log ("Payment status: " ++ charge_status charge)).

End LogTransaction.

Module ProcessPayment.

Definition process_transaction (customer_data : CustomerData) (payment_data : PaymentData)
  : M Charge :=
  key <- os_getenv "STRIPE_SECRET_KEY" ;;
  set_api_key key ;;
  try_except
    (let description := "Charge for " ++ name customer_data in
     charge <- gateway
                 (Charge_create (amount payment_data) "usd" (source payment_data) description)
                 (fun env w =>
                    gw_Charge_create env w (amount payment_data) "usd"
                      (source payment_data) description) ;;
     print "Payment successful" ;;
     ret charge)
    StripeError
    (fun e =>
       print ("Payment failed: " ++ exn_str e) ;;
       raise e).

Definition new : PaymentProcessor := mk_PaymentProcessor process_transaction.

End ProcessPayment.

Record PaymentService : Type := mk_PaymentService {
  process_payment : PaymentProcessor;
  notify : Notify
}.

Definition default_service : PaymentService :=
  mk_PaymentService ProcessPayment.new EmailNotify.new.

Definition process_payments (self : PaymentService)
    (payment_data : PaymentData) (customer_data : CustomerData) : M Charge :=
  try_except
    (ValidateData.validate_customer_data customer_data ;;
     ValidatePaymentData.validate_payment_data payment_data ;;
     charge <- process_transaction (process_payment self) customer_data payment_data ;;
     notify_customer (notify self) customer_data ;;
     LogTransaction.log_transaction customer_data payment_data charge ;;
     ret charge)
    Exception
    (fun e =>
       print ("Error processing payment: " ++ exn_str e) ;;
       raise e).

End Liskov.

(** * Open/closed variant ([open_close/after.py])

    [ProcessPayment] and [LogTransaction] are the same text as in the Liskov
    file; the notifier is one class that picks the channel itself, and the
    facade has no fields. *)

Module OpenClose.

Module NotifyCustomer.

Definition notify_customer (customer_data : CustomerData) : M unit :=
  to <- contact_email customer_data ;;
  if truthy_opt_str to then
    to' <- contact_email customer_data ;;
    to'' <- contact_email customer_data ;;
    print ("Email sent to " ++ str_opt to'')
  else
    ph <- contact_phone customer_data ;;
    if truthy_opt_str ph then
      phone_number <- contact_phone customer_data ;;
      let sms_gateway := "the custom SMS Gateway" in
      print ("send the sms using " ++ sms_gateway ++ ": SMS sent to "
             ++ str_opt phone_number ++ ": Thank you for your payment.")
    else
      print "No valid contact information for notification".

End NotifyCustomer.

Definition process_payments (payment_data : PaymentData) (customer_data : CustomerData)
  : M Charge :=
  try_except
    (ValidateData.validate_customer_data customer_data ;;
     ValidatePaymentData.validate_payment_data payment_data ;;
     charge <- Liskov.ProcessPayment.process_transaction customer_data payment_data ;;
     NotifyCustomer.notify_customer customer_data ;;
     Liskov.LogTransaction.log_transaction customer_data payment_data charge ;;
     ret charge)
    Exception
    (fun e =>
       print ("Error processing payment: " ++ exn_str e) ;;
       raise e).

End OpenClose.

(** * Executors that ignore the return annotation

    [process_transaction] is declared to return a [PaymentResponse], but
    Python does not check it.  [OffLinePaymentProcessor] defines
    [process_payments] only, so the [process_transaction] it answers to is
    the one inherited from [PaymentProcessorProtocol], whose body is [...]
    ([isp/after.py], lines 104-107 and 196-207): it returns [None].  The facade
    of the ISP variant is given here once more, the same statements with the
    executor's result left untyped. *)

Module Untyped.

Record PaymentProcessor : Type := mk_PaymentProcessor {
  process_transaction : CustomerData -> PaymentData -> M pyval
}.


Module PaymentProcessorProtocol.

(** The protocol's own method: the body [...] and then the implicit
    [return None]. *)
Definition process_transaction (customer_data : CustomerData) (payment_data : PaymentData)
  : M pyval :=
  ret PyNone.

End PaymentProcessorProtocol.

Module OffLinePaymentProcessor.

(** [OffLinePaymentProcessor()] where a [PaymentProcessorProtocol] is
    expected. *)
Definition new : PaymentProcessor :=
  mk_PaymentProcessor PaymentProcessorProtocol.process_transaction.

End OffLinePaymentProcessor.

(** [PaymentService(process_payment=..., notify=...).process_payments]. *)
Definition process_payments (processor : PaymentProcessor) (notifier : ISP.Notify)
    (payment_data : PaymentData) (customer_data : CustomerData) : M pyval :=
  try_except
    (ValidateData.validate_customer_data customer_data ;;
     ValidatePaymentData.validate_payment_data payment_data ;;
     charge <- process_transaction processor customer_data payment_data ;;
     ISP.notify_customer notifier customer_data ;;
     ISP.LogTransaction.log_transaction
       [PyCustomer customer_data; PyPayment payment_data; charge] ;;
     ret charge)
    Exception
    (fun e =>
       print ("Error processing payment: " ++ exn_str e) ;;
       raise e).

End Untyped.

(** * Sample data

    The objects of the demonstration blocks ([isp/after.py], lines 255-278)
    and two gateways: one that accepts everything, one that declines every
    charge. *)

Definition customer_data_with_email : CustomerData :=
  mk_CustomerData "John Doe" (Some (mk_ContactInfo (Some "example@mail.com") None)) None.

Definition customer_data_with_phone : CustomerData :=
  mk_CustomerData "Platzi Python" (Some (mk_ContactInfo None (Some "1234567890"))) None.

Definition customer_data_with_both : CustomerData :=
  mk_CustomerData "John Doe"
    (Some (mk_ContactInfo (Some "example@mail.com") (Some "1234567890"))) None.

Definition payment_data_500 : PaymentData := mk_PaymentData 500 "tok_mastercard".

Definition empty_world : World := mk_World [] [] None [] 0.

Definition uuid_decimal (n : nat) : string := NilEmpty.string_of_uint (Nat.to_uint n).

Definition sample_getenv (k : string) : option string :=
  if k =? "STRIPE_SECRET_KEY" then Some "sk_test_123"
  else if k =? "STRIPE_PRICE_ID" then Some "price_123"
  else None.

Definition accepting_env : Env :=
  mk_Env sample_getenv
    (fun _ amount _ _ _ => Return (mk_Charge "succeeded" amount "ch_1"))
    (fun _ _ => Return (mk_Customer "cus_1"))
    (fun _ method _ => Return (mk_PaymentMethod method))
    (fun _ _ _ => Return tt)
    (fun _ _ _ => Return (mk_Subscription "active" "sub_1" [1500%Z]))
    (fun _ => None)
    uuid_decimal.

Definition card_declined : exn := mk_exn StripeError "Your card was declined.".

Definition declining_env : Env :=
  mk_Env sample_getenv
    (fun _ _ _ _ _ => Raise card_declined)
    (fun _ _ => Return (mk_Customer "cus_1"))
    (fun _ method _ => Return (mk_PaymentMethod method))
    (fun _ _ _ => Return tt)
    (fun _ _ _ => Return (mk_Subscription "active" "sub_1" [1500%Z]))
    (fun _ => None)
    uuid_decimal.

(** A gateway that accepts the charge, on a machine where the log file
    cannot be opened. *)
Definition permission_denied : exn :=
  mk_exn OSError "[Errno 13] Permission denied: 'transactions.log'".

Definition read_only_env : Env :=
  mk_Env sample_getenv
    (fun _ amount _ _ _ => Return (mk_Charge "succeeded" amount "ch_1"))
    (fun _ _ => Return (mk_Customer "cus_1"))
    (fun _ method _ => Return (mk_PaymentMethod method))
    (fun _ _ _ => Return tt)
    (fun _ _ _ => Return (mk_Subscription "active" "sub_1" [1500%Z]))
    (fun _ => Some permission_denied)
    uuid_decimal.

(** A gateway that creates the customer and then rejects the payment
    method. *)
Definition invalid_payment_method : exn := mk_exn StripeError "No such PaymentMethod".

Definition attach_rejecting_env : Env :=
  mk_Env sample_getenv
    (fun _ amount _ _ _ => Return (mk_Charge "succeeded" amount "ch_1"))
    (fun _ _ => Return (mk_Customer "cus_1"))
    (fun _ _ _ => Raise invalid_payment_method)
    (fun _ _ _ => Return tt)
    (fun _ _ _ => Return (mk_Subscription "active" "sub_1" [1500%Z]))
    (fun _ => None)
    uuid_decimal.

(** A gateway whose subscriptions come back without items. *)
Definition itemless_env : Env :=
  mk_Env sample_getenv
    (fun _ amount _ _ _ => Return (mk_Charge "succeeded" amount "ch_1"))
    (fun _ _ => Return (mk_Customer "cus_1"))
    (fun _ method _ => Return (mk_PaymentMethod method))
    (fun _ _ _ => Return tt)
    (fun _ _ _ => Return (mk_Subscription "incomplete" "sub_1" []))
    (fun _ => None)
    uuid_decimal.

(** A customer without a name. *)
Definition customer_data_without_name : CustomerData :=
  mk_CustomerData "" (Some (mk_ContactInfo (Some "example@mail.com") None)) None.

(** * Vocabulary of the statements

    Predicates and abbreviations that the properties below are stated with. *)

(** An [Optional[str]] is empty when it is [None] or [""]. *)
Definition empty_opt_str (o : option string) : Prop := o = None \/ o = Some "".

(** The three defects [validate_customer_data] looks for. *)
Definition invalid_customer (customer_data : CustomerData) : Prop :=
  name customer_data = ""
  \/ contact_info customer_data = None
  \/ exists contact,
       contact_info customer_data = Some contact
       /\ empty_opt_str (email contact) /\ empty_opt_str (phone contact).

(** Validation fails: a [ValueError] comes out, after its text was printed. *)
Definition customer_validation_fails (customer_data : CustomerData) (env : Env) (w : World)
  : Prop :=
  exists msg,
    ValidateData.validate_customer_data customer_data env w
    = (Raise (mk_exn ValueError msg), printed w [msg]).

(** Validation passes: the validator returns and the world is as before. *)
Definition customer_validation_passes (customer_data : CustomerData) (env : Env) (w : World)
  : Prop :=
  ValidateData.validate_customer_data customer_data env w = (Return tt, w).

(** The same two outcomes for [validate_payment_data], which returns [True]. *)
Definition payment_validation_fails (payment_data : PaymentData) (env : Env) (w : World)
  : Prop :=
  exists msg,
    ValidatePaymentData.validate_payment_data payment_data env w
    = (Raise (mk_exn ValueError msg), printed w [msg]).

Definition payment_validation_passes (payment_data : PaymentData) (env : Env) (w : World)
  : Prop :=
  ValidatePaymentData.validate_payment_data payment_data env w = (Return true, w).

(** What the guard of [validate_payment_data] tests: a falsy amount or a
    falsy source. *)
Definition invalid_payment (payment_data : PaymentData) : Prop :=
  amount payment_data = 0%Z \/ source payment_data = "".


(** The line the email branch prints, and the line the SMS branch prints. *)
Definition email_line (to : option string) : string := "Email sent to " ++ str_opt to.

Definition sms_line (phone_number : option string) : string :=
  "send the sms using " ++ "the custom SMS Gateway" ++ ": SMS sent to "
  ++ str_opt phone_number ++ ": Thank you for your payment.".

(** The request [process_transaction] sends, and the world it is sent from. *)
Definition charge_call (customer_data : CustomerData) (payment_data : PaymentData)
  : StripeCall :=
  Charge_create (amount payment_data) "usd" (source payment_data)
    ("Charge for " ++ name customer_data).

(** The world once [stripe.api_key] has been set from the environment. *)
Definition keyed (env : Env) (w : World) : World :=
  set_stripe_api_key w (getenv env "STRIPE_SECRET_KEY").

(** The gateway answers the charge of this request with the exception [e]. *)
Definition charge_rejected (customer_data : CustomerData) (payment_data : PaymentData)
    (env : Env) (w : World) (e : exn) : Prop :=
  gw_Charge_create env (keyed env w) (amount payment_data) "usd" (source payment_data)
    ("Charge for " ++ name customer_data) = Raise e.

(** The response the ISP executor builds in its [except StripeError] branch. *)
Definition failed_response (e : exn) : PaymentResponse :=
  mk_PaymentResponse "payment_failed" 0 None (Some (exn_str e)).

(** The texts of the validators' errors. *)
Definition validation_messages : list string :=
  ["Invalid customer data: missing name";
   "Invalid customer data: missing contact info";
   "Invalid customer data: missing email or phone";
   "Invalid payment data"].

(** [raised_at_stage self payment_data customer_data env w e w']: started in
    [w], the body of [process_payments] runs up to one of its five calls,
    which raises [e] and leaves the world [w']. *)
Inductive raised_at_stage (self : ISP.PaymentService) (payment_data : PaymentData)
    (customer_data : CustomerData) (env : Env) (w : World) (e : exn) (w' : World) : Prop :=
| raised_validating_customer :
    ValidateData.validate_customer_data customer_data env w = (Raise e, w') ->
    raised_at_stage self payment_data customer_data env w e w'
| raised_validating_payment (w1 : World) :
    ValidateData.validate_customer_data customer_data env w = (Return tt, w1) ->
    ValidatePaymentData.validate_payment_data payment_data env w1 = (Raise e, w') ->
    raised_at_stage self payment_data customer_data env w e w'
| raised_charging (w1 w2 : World) (valid : bool) :
    ValidateData.validate_customer_data customer_data env w = (Return tt, w1) ->
    ValidatePaymentData.validate_payment_data payment_data env w1 = (Return valid, w2) ->
    ISP.process_transaction (ISP.process_payment self) customer_data payment_data env w2
    = (Raise e, w') ->
    raised_at_stage self payment_data customer_data env w e w'
| raised_notifying (w1 w2 w3 : World) (valid : bool) (charge : PaymentResponse) :
    ValidateData.validate_customer_data customer_data env w = (Return tt, w1) ->
    ValidatePaymentData.validate_payment_data payment_data env w1 = (Return valid, w2) ->
    ISP.process_transaction (ISP.process_payment self) customer_data payment_data env w2
    = (Return charge, w3) ->
    ISP.notify_customer (ISP.notify self) customer_data env w3 = (Raise e, w') ->
    raised_at_stage self payment_data customer_data env w e w'
| raised_logging (w1 w2 w3 w4 : World) (valid : bool) (charge : PaymentResponse) :
    ValidateData.validate_customer_data customer_data env w = (Return tt, w1) ->
    ValidatePaymentData.validate_payment_data payment_data env w1 = (Return valid, w2) ->
    ISP.process_transaction (ISP.process_payment self) customer_data payment_data env w2
    = (Return charge, w3) ->
    ISP.notify_customer (ISP.notify self) customer_data env w3 = (Return tt, w4) ->
    ISP.LogTransaction.log_transaction
      [PyCustomer customer_data; PyPayment payment_data; PyResponse charge] env w4
    = (Raise e, w') ->
    raised_at_stage self payment_data customer_data env w e w'.

(** The response the ISP executor builds from the gateway's charge. *)
Definition response_of_charge (charge : Charge) : PaymentResponse :=
  mk_PaymentResponse (charge_status charge) (charge_amount charge)
    (Some (charge_id charge)) (Some "Payment successful").

(** The response [setup_recurrence] builds in its [except StripeError]
    branch. *)
Definition failed_recurrence_response (e : exn) : PaymentResponse :=
  mk_PaymentResponse "recurrence_payment_failed" 0 None (Some (exn_str e)).





(** The worlds [setup_recurrence] goes through while the gateway accepts. *)
Definition recurrence_world1 (env : Env) (w : World) (contact : ContactInfo) : World :=
  sent (keyed env w) (Customer_create (email contact)).

Definition recurrence_world2 (env : Env) (w : World) (contact : ContactInfo)
    (payment_data : PaymentData) (customer : Customer) : World :=
  sent (recurrence_world1 env w contact)
    (PaymentMethod_attach (source payment_data) (customer_id customer)).

(** The notifier of the Liskov variant that does what the notifier of the
    open/closed variant does for this customer: email when there is an
    email address, SMS otherwise. *)
Definition chosen_notifier (customer_data : CustomerData) : Liskov.Notify :=
  match contact_info customer_data with
  | Some contact =>
      if truthy_opt_str (email contact) then Liskov.EmailNotify.new else Liskov.SMSNotify.new
  | None => Liskov.EmailNotify.new
  end.

(** * Properties *)

(** Unfolds the statement combinators of [M]. *)
Ltac unfold_py :=
  unfold bind, ret, raise, try_except, print, os_getenv, set_api_key, gateway,
    with_open_append, write_log, uuid4_str.

(** ** Truth values *)

Lemma truthy_str_false (s : string) : truthy_str s = false <-> s = "".
Proof.
  unfold truthy_str. rewrite negb_false_iff. apply String.eqb_eq.
Qed.

Lemma truthy_str_true (s : string) : truthy_str s = true <-> s <> "".
Proof.
  unfold truthy_str. rewrite negb_true_iff. apply String.eqb_neq.
Qed.

Lemma truthy_opt_str_false (o : option string) :
  truthy_opt_str o = false <-> empty_opt_str o.
Proof.
  unfold empty_opt_str. destruct o as [s|]; simpl.
  - rewrite truthy_str_false. split.
    + intros ->. now right.
    + intros [H|H]; [discriminate | now inversion H].
  - split; [now left | reflexivity].
Qed.

Lemma truthy_opt_str_true (o : option string) :
  truthy_opt_str o = true <-> ~ empty_opt_str o.
Proof.
  rewrite <- truthy_opt_str_false. destruct (truthy_opt_str o); split; congruence.
Qed.

Lemma truthy_int_false (z : Z) : truthy_int z = false <-> z = 0%Z.
Proof.
  unfold truthy_int. rewrite negb_false_iff. apply Z.eqb_eq.
Qed.

(** ** Customer validation *)

Lemma validate_customer_data_cases (customer_data : CustomerData) (env : Env) (w : World) :
  (invalid_customer customer_data /\ customer_validation_fails customer_data env w)
  \/ (~ invalid_customer customer_data /\ customer_validation_passes customer_data env w).
Proof.
  unfold invalid_customer, customer_validation_fails, customer_validation_passes,
    ValidateData.validate_customer_data.
  destruct customer_data as [n [[e p]|] i]; simpl.
  - destruct (truthy_str n) eqn:Hn; simpl.
    + apply truthy_str_true in Hn.
      destruct (truthy_opt_str e) eqn:He; simpl.
      * right. split; [|reflexivity].
        apply truthy_opt_str_true in He.
        intros [H|[H|(c & Hc & H1 & H2)]]; [contradiction | discriminate |].
        inversion Hc; subst c. now apply He.
      * destruct (truthy_opt_str p) eqn:Hp; simpl.
        -- right. split; [|reflexivity].
           apply truthy_opt_str_true in Hp.
           intros [H|[H|(c & Hc & H1 & H2)]]; [contradiction | discriminate |].
           inversion Hc; subst c. now apply Hp.
        -- left. apply truthy_opt_str_false in He, Hp. split.
           ++ right; right. exists (mk_ContactInfo e p). now repeat split.
           ++ eexists. reflexivity.
    + left. apply truthy_str_false in Hn. split; [now left|].
      eexists. reflexivity.
  - destruct (truthy_str n) eqn:Hn; simpl.
    + left. split; [right; now left|]. eexists. reflexivity.
    + left. apply truthy_str_false in Hn. split; [now left|]. eexists. reflexivity.
Qed.

Lemma customer_validation_exclusive (customer_data : CustomerData) (env : Env) (w : World) :
  customer_validation_fails customer_data env w ->
  customer_validation_passes customer_data env w -> False.
Proof.
  intros [msg Hf] Hp. unfold customer_validation_passes in Hp. congruence.
Qed.

(** C5. [validate_customer_data] raises its [ValueError] exactly when the name
    is empty, the contact info is missing, or email and phone are both empty,
    and returns normally exactly otherwise.  In particular, for a named
    customer with a [ContactInfo], it fails when both channels are empty and
    passes as soon as one of them is present. *)
Theorem validate_customer_data_fails_iff :
  forall (customer_data : CustomerData) (env : Env) (w : World),
    (customer_validation_fails customer_data env w <-> invalid_customer customer_data)
    /\ (customer_validation_passes customer_data env w <-> ~ invalid_customer customer_data)
    /\ (forall n contact i,
          customer_data = mk_CustomerData n (Some contact) i -> n <> "" ->
          (empty_opt_str (email contact) /\ empty_opt_str (phone contact) ->
           customer_validation_fails customer_data env w)
          /\ (~ empty_opt_str (email contact) \/ ~ empty_opt_str (phone contact) ->
              customer_validation_passes customer_data env w)).
Proof.
  intros cd env w.
  pose proof (validate_customer_data_cases cd env w) as Hcases.
  pose proof (@customer_validation_exclusive cd env w) as Hex.
  assert (Hfail : customer_validation_fails cd env w <-> invalid_customer cd).
  { split; intro H.
    - destruct Hcases as [[Hi _]|[_ Hp]]; [assumption | exfalso; auto].
    - destruct Hcases as [[_ Hf]|[Hn _]]; [assumption | contradiction]. }
  assert (Hpass : customer_validation_passes cd env w <-> ~ invalid_customer cd).
  { split; intro H.
    - destruct Hcases as [[_ Hf]|[Hn _]]; [exfalso; auto | assumption].
    - destruct Hcases as [[Hi _]|[_ Hp]]; [contradiction | assumption]. }
  split; [exact Hfail|]. split; [exact Hpass|].
  intros n c i -> Hn. split.
  - intros [He Hp]. apply Hfail. right; right. exists c. simpl. auto.
  - intros Hpresent. apply Hpass.
    intros [H|[H|(c' & Hc & He & Hp)]]; simpl in *.
    + contradiction.
    + discriminate.
    + inversion Hc; subst c'. destruct Hpresent; contradiction.
Qed.

(** ** Payment validation *)

Lemma validate_payment_data_cases (payment_data : PaymentData) (env : Env) (w : World) :
  (invalid_payment payment_data /\ payment_validation_fails payment_data env w)
  \/ (~ invalid_payment payment_data /\ payment_validation_passes payment_data env w).
Proof.
  unfold invalid_payment, payment_validation_fails, payment_validation_passes,
    ValidatePaymentData.validate_payment_data.
  destruct payment_data as [a s]; simpl.
  destruct (truthy_int a) eqn:Ha; simpl.
  - destruct (truthy_str s) eqn:Hs; simpl.
    + right. split; [|reflexivity].
      apply truthy_str_true in Hs.
      intros [H|H]; [|contradiction].
      apply truthy_int_false in H. congruence.
    + left. apply truthy_str_false in Hs. split; [now right|]. eexists. reflexivity.
  - left. apply truthy_int_false in Ha. split; [now left|]. eexists. reflexivity.
Qed.

(** C3, as amended.  [validate_payment_data] raises its [ValueError] exactly
    when the amount is [0] or the source is empty, and returns [True]
    otherwise; a negative amount with a source passes. *)
Theorem validate_payment_data_fails_iff :
  forall (payment_data : PaymentData) (env : Env) (w : World),
    (payment_validation_fails payment_data env w <-> invalid_payment payment_data)
    /\ (payment_validation_passes payment_data env w <-> ~ invalid_payment payment_data).
Proof.
  intros pd env w.
  pose proof (validate_payment_data_cases pd env w) as Hcases.
  assert (Hex : payment_validation_fails pd env w ->
                payment_validation_passes pd env w -> False).
  { intros [msg Hf] Hp. unfold payment_validation_passes in Hp. congruence. }
  split; split; intro H.
  - destruct Hcases as [[Hi _]|[_ Hp]]; [assumption | exfalso; auto].
  - destruct Hcases as [[_ Hf]|[Hn _]]; [assumption | contradiction].
  - destruct Hcases as [[_ Hf]|[Hn _]]; [exfalso; auto | assumption].
  - destruct Hcases as [[Hi _]|[_ Hp]]; [contradiction | assumption].
Qed.

(** C3, as stated, fails: the payment of [-5] from ["tok_mastercard"] has an
    amount below zero and is accepted. *)
Lemma validate_payment_data_accepts_negative_amount :
  ValidatePaymentData.validate_payment_data (mk_PaymentData (-5) "tok_mastercard")
    accepting_env empty_world
  = (Return true, empty_world)
  /\ ~ (forall payment_data env w,
          (amount payment_data <= 0)%Z \/ source payment_data = "" ->
          payment_validation_fails payment_data env w).
Proof.
  split; [reflexivity|].
  intro H.
  destruct (H (mk_PaymentData (-5) "tok_mastercard") accepting_env empty_world) as [msg Hm].
  - left. simpl. lia.
  - discriminate Hm.
Qed.

(** ** The offline charge executor *)

Lemma offline_process_payments_run
    (customer_data : CustomerData) (payment_data : PaymentData) (env : Env) (w : World) :
  ISP.OffLinePaymentProcessor.process_payments customer_data payment_data env w
  = (Return (mk_PaymentResponse "offline_payment_processed" (amount payment_data)
               (Some (uuid_source env (uuid_draws w)))
               (Some "Offline payment processed successfully")),
     set_uuid_draws (printed w ["Offline payment processed successfully"])
       (S (uuid_draws w))).
Proof. reflexivity. Qed.

(** C10. The offline executor always returns, and the response carries the
    requested amount. *)
Theorem offline_process_payments_echoes_amount :
  forall (customer_data : CustomerData) (payment_data : PaymentData) (env : Env) (w : World),
  exists response w',
    ISP.OffLinePaymentProcessor.process_payments customer_data payment_data env w
    = (Return response, w')
    /\ response_amount response = amount payment_data.
Proof.
  intros cd pd env w. rewrite offline_process_payments_run.
  eexists. eexists. split; reflexivity.
Qed.





(** ** The notifier of the open/closed variant *)

Lemma email_line_is_not_sms_line (to phone_number : option string) :
  email_line to <> sms_line phone_number.
Proof. unfold email_line, sms_line. simpl. discriminate. Qed.

Lemma notify_customer_email_branch
    (customer_data : CustomerData) (contact : ContactInfo) (env : Env) (w : World) :
  contact_info customer_data = Some contact ->
  truthy_opt_str (email contact) = true ->
  OpenClose.NotifyCustomer.notify_customer customer_data env w
  = (Return tt, printed w [email_line (email contact)]).
Proof.
  intros Hc He.
  unfold OpenClose.NotifyCustomer.notify_customer, contact_email, bind.
  rewrite Hc. simpl. rewrite He. reflexivity.
Qed.

(** C9. When the customer has both a non-empty email and a non-empty phone,
    the open/closed notifier prints the email confirmation and nothing else:
    the SMS line is not among what it prints. *)
Theorem notify_customer_email_takes_precedence :
  forall (customer_data : CustomerData) (contact : ContactInfo) (e p : string)
         (env : Env) (w : World),
    contact_info customer_data = Some contact ->
    email contact = Some e -> e <> "" ->
    phone contact = Some p -> p <> "" ->
    exists lines,
      OpenClose.NotifyCustomer.notify_customer customer_data env w
      = (Return tt, printed w lines)
      /\ lines = [email_line (Some e)]
      /\ forall phone_number, ~ In (sms_line phone_number) lines.
Proof.
  intros cd c e p env w Hc He Hne Hp Hnp.
  exists [email_line (Some e)]. split; [|split; [reflexivity|]].
  - rewrite <- He. apply notify_customer_email_branch; [assumption|].
    rewrite He. simpl. now apply truthy_str_true.
  - intros q [H|[]]. now apply email_line_is_not_sms_line in H.
Qed.

Lemma notify_customer_email_takes_precedence_witness :
  exists lines,
    OpenClose.NotifyCustomer.notify_customer customer_data_with_both accepting_env empty_world
    = (Return tt, printed empty_world lines)
    /\ lines = [email_line (Some "example@mail.com")]
    /\ forall phone_number, ~ In (sms_line phone_number) lines.
Proof.
  apply (@notify_customer_email_takes_precedence customer_data_with_both
           (mk_ContactInfo (Some "example@mail.com") (Some "1234567890"))
           "example@mail.com" "1234567890" accepting_env empty_world);
    solve [reflexivity | discriminate].
Defined.

(** ** Recurrence setup *)

(** C6. When the four gateway operations of [setup_recurrence] succeed and
    the subscription has a first item, the response carries that item's unit
    price as its amount (with the subscription's status and identifier).  The
    requested amount plays no part: another amount in the request gives the
    same run. *)
Theorem setup_recurrence_reports_unit_price :
  forall (customer_data : CustomerData) (payment_data : PaymentData) (env : Env) (w : World)
         (contact : ContactInfo) (customer : Customer) (payment_method : PaymentMethod)
         (subscription : Subscription) (unit_amount : Z) (rest : list Z),
    let price_id := getenv env "STRIPE_PRICE_ID" in
    let w1 := set_stripe_api_key w (getenv env "STRIPE_SECRET_KEY") in
    let w2 := sent w1 (Customer_create (email contact)) in
    let w3 := sent w2 (PaymentMethod_attach (source payment_data) (customer_id customer)) in
    let w4 := sent w3 (Customer_modify (customer_id customer)
                         (payment_method_id payment_method)) in
    let w5 := sent w4 (Subscription_create (customer_id customer) price_id) in
    contact_info customer_data = Some contact ->
    gw_Customer_create env w1 (email contact) = Return customer ->
    gw_PaymentMethod_attach env w2 (source payment_data) (customer_id customer)
    = Return payment_method ->
    gw_Customer_modify env w3 (customer_id customer) (payment_method_id payment_method)
    = Return tt ->
    gw_Subscription_create env w4 (customer_id customer) price_id = Return subscription ->
    subscription_items subscription = unit_amount :: rest ->
    ISP.ProcessPayment.setup_recurrence customer_data payment_data env w
    = (Return (mk_PaymentResponse (subscription_status subscription) unit_amount
                 (Some (subscription_id subscription))
                 (Some "Recurrence payment successful")),
       printed w5 ["Recurrence payment successful"])
    /\ forall other_amount,
         ISP.ProcessPayment.setup_recurrence customer_data
           (mk_PaymentData other_amount (source payment_data)) env w
         = ISP.ProcessPayment.setup_recurrence customer_data payment_data env w.
Proof.
  intros cd pd env w contact customer pm sub u rest price_id w1 w2 w3 w4 w5
    Hc Hcust Hpm Hmod Hsub Hitems.
  split.
  - unfold ISP.ProcessPayment.setup_recurrence,
      ISP.ProcessPayment.__attach_payment_method,
      ISP.ProcessPayment.__set_default_payment_method,
      ISP.ProcessPayment.first_unit_amount, contact_email.
    unfold_py. rewrite Hc.
    fold w1. rewrite Hcust.
    fold w2. rewrite Hpm.
    fold w3. rewrite Hmod.
    fold w4. fold price_id. rewrite Hsub.
    rewrite Hitems. reflexivity.
  - intros a. destruct pd as [a0 s]. reflexivity.
Qed.

Lemma setup_recurrence_reports_unit_price_witness :
  ISP.ProcessPayment.setup_recurrence customer_data_with_email payment_data_500
    accepting_env empty_world
  = (Return (mk_PaymentResponse "active" 1500 (Some "sub_1")
               (Some "Recurrence payment successful")),
     mk_World ["Recurrence payment successful"] [] (Some "sk_test_123")
       [Customer_create (Some "example@mail.com");
        PaymentMethod_attach "tok_mastercard" "cus_1";
        Customer_modify "cus_1" "tok_mastercard";
        Subscription_create "cus_1" (Some "price_123")] 0)
  /\ 1500%Z <> amount payment_data_500.
Proof.
  split; [|discriminate].
  apply (@setup_recurrence_reports_unit_price customer_data_with_email payment_data_500
           accepting_env empty_world
           (mk_ContactInfo (Some "example@mail.com") None)
           (mk_Customer "cus_1") (mk_PaymentMethod "tok_mastercard")
           (mk_Subscription "active" "sub_1" [1500%Z]) 1500%Z []);
    reflexivity.
Defined.

(** ** Gateway failures during a charge *)

Lemma isp_process_transaction_catches
    (customer_data : CustomerData) (payment_data : PaymentData) (env : Env) (w : World)
    (e : exn) :
  charge_rejected customer_data payment_data env w e ->
  isinstance e StripeError = true ->
  ISP.ProcessPayment.process_transaction customer_data payment_data env w
  = (Return (failed_response e),
     printed (sent (keyed env w) (charge_call customer_data payment_data))
       ["Payment failed: " ++ exn_str e]).
Proof.
  intros Hrej Hcls. unfold charge_rejected in Hrej.
  unfold ISP.ProcessPayment.process_transaction. unfold_py.
  fold (keyed env w). rewrite Hrej, Hcls. reflexivity.
Qed.

Lemma liskov_process_transaction_reraises
    (customer_data : CustomerData) (payment_data : PaymentData) (env : Env) (w : World)
    (e : exn) :
  charge_rejected customer_data payment_data env w e ->
  isinstance e StripeError = true ->
  Liskov.ProcessPayment.process_transaction customer_data payment_data env w
  = (Raise e,
     printed (sent (keyed env w) (charge_call customer_data payment_data))
       ["Payment failed: " ++ exn_str e]).
Proof.
  intros Hrej Hcls. unfold charge_rejected in Hrej.
  unfold Liskov.ProcessPayment.process_transaction. unfold_py.
  fold (keyed env w). rewrite Hrej, Hcls. reflexivity.
Qed.

Lemma StripeError_is_Exception (e : exn) :
  isinstance e StripeError = true -> isinstance e Exception = true.
Proof.
  unfold isinstance. destruct (exn_class_of e); simpl; congruence.
Qed.

Lemma validation_passes_run
    (customer_data : CustomerData) (payment_data : PaymentData) (env : Env) (w : World) :
  ~ invalid_customer customer_data ->
  ~ invalid_payment payment_data ->
  ValidateData.validate_customer_data customer_data env w = (Return tt, w)
  /\ ValidatePaymentData.validate_payment_data payment_data env w = (Return true, w).
Proof.
  intros Hc Hp. split.
  - destruct (validate_customer_data_cases customer_data env w) as [[H _]|[_ H]];
      [contradiction | exact H].
  - destruct (validate_payment_data_cases payment_data env w) as [[H _]|[_ H]];
      [contradiction | exact H].
Qed.

(** C1, as amended.  On validated input, when the gateway answers the charge
    with a [StripeError]:
    - in the ISP variant the charge executor catches it and returns the
      response with status ["payment_failed"] and amount [0]; once the
      notifier and the log write have completed, [process_payments] returns
      that response, and the log file has the three lines of the failed
      charge;
    - in the Liskov variant the charge executor raises it again, and
      [process_payments] raises it to the caller after its diagnostic. *)
Theorem process_payments_on_gateway_failure :
  forall (customer_data : CustomerData) (payment_data : PaymentData) (env : Env) (w : World)
         (e : exn),
    ~ invalid_customer customer_data ->
    ~ invalid_payment payment_data ->
    charge_rejected customer_data payment_data env w e ->
    isinstance e StripeError = true ->
    let w_charged :=
      printed (sent (keyed env w) (charge_call customer_data payment_data))
        ["Payment failed: " ++ exn_str e] in
    (forall (notifier : ISP.Notify) refund recurrence (w_notified : World),
        ISP.notify_customer notifier customer_data env w_charged = (Return tt, w_notified) ->
        open_append env w_notified = None ->
        exists w',
          ISP.process_payments
            (ISP.mk_PaymentService ISP.ProcessPayment.as_processor notifier refund recurrence)
            payment_data customer_data env w
          = (Return (failed_response e), w')
          /\ status (failed_response e) = "payment_failed"
          /\ response_amount (failed_response e) = 0%Z
          /\ transactions_log w'
             = List.app (transactions_log w_notified)
                 [name customer_data ++ " paid " ++ str_int (amount payment_data);
                  "Transaction ID: None";
                  "Status: payment_failed"])
    /\ (forall (notifier : Liskov.Notify),
          Liskov.process_payments
            (Liskov.mk_PaymentService Liskov.ProcessPayment.new notifier)
            payment_data customer_data env w
          = (Raise e, printed w_charged ["Error processing payment: " ++ exn_str e])).
Proof.
  intros cd pd env w e Hc Hp Hrej Hcls w_charged.
  destruct (validation_passes_run env w Hc Hp) as [Hvc Hvp].
  split.
  - intros nt rf rc w3 Hnt Hopen.
    unfold ISP.process_payments, try_except, bind at 1 2 3 4 5; simpl.
    rewrite Hvc, Hvp.
    rewrite (isp_process_transaction_catches Hrej Hcls).
    fold w_charged. rewrite Hnt.
    unfold ISP.LogTransaction.log_transaction. unfold_py. rewrite Hopen. simpl.
    eexists. split; [reflexivity|].
    repeat split. simpl. rewrite <- !app_assoc. reflexivity.
  - intros nt.
    unfold Liskov.process_payments, try_except, bind at 1 2 3 4 5; simpl.
    rewrite Hvc, Hvp.
    rewrite (liskov_process_transaction_reraises Hrej Hcls).
    rewrite (StripeError_is_Exception _ Hcls). reflexivity.
Qed.

Lemma customer_data_with_email_is_valid : ~ invalid_customer customer_data_with_email.
Proof.
  intros [H|[H|(c & Hc & [He|He] & _)]]; try discriminate H;
    inversion Hc; subst c; discriminate He.
Qed.

Lemma payment_data_500_is_valid : ~ invalid_payment payment_data_500.
Proof. intros [H|H]; discriminate H. Qed.

Lemma process_payments_on_gateway_failure_witness :
  (exists w',
      ISP.process_payments ISP.default_service payment_data_500 customer_data_with_email
        declining_env empty_world
      = (Return (failed_response card_declined), w')
      /\ transactions_log w'
         = ["John Doe paid 500"; "Transaction ID: None"; "Status: payment_failed"])
  /\ exists w',
      Liskov.process_payments Liskov.default_service payment_data_500 customer_data_with_email
        declining_env empty_world
      = (Raise card_declined, w').
Proof.
  destruct (@process_payments_on_gateway_failure customer_data_with_email payment_data_500
              declining_env empty_world card_declined
              customer_data_with_email_is_valid payment_data_500_is_valid
              eq_refl eq_refl) as [Hisp Hliskov].
  split.
  - destruct (Hisp ISP.EmailNotify.new None None _ eq_refl eq_refl)
      as (w' & Hrun & _ & _ & Hlog).
    exists w'. split; [exact Hrun | exact Hlog].
  - eexists. apply (Hliskov Liskov.EmailNotify.new).
Defined.

(** C1, as stated, fails on the declined charge of the demonstration data:
    the Liskov facade raises the gateway's error, and the response of the ISP
    facade has status ["payment_failed"], not ["failed"]. *)
Lemma process_payments_gateway_failure_counterexample :
  Liskov.process_payments Liskov.default_service payment_data_500 customer_data_with_email
    declining_env empty_world
  = (Raise card_declined,
     mk_World ["Payment failed: Your card was declined.";
               "Error processing payment: Your card was declined."]
       [] (Some "sk_test_123")
       [Charge_create 500 "usd" "tok_mastercard" "Charge for John Doe"] 0)
  /\ ISP.process_payments ISP.default_service payment_data_500 customer_data_with_email
       declining_env empty_world
     = (Return (mk_PaymentResponse "payment_failed" 0 None (Some "Your card was declined.")),
        mk_World ["Payment failed: Your card was declined.";
                  "Email sent to example@mail.com"]
          ["John Doe paid 500"; "Transaction ID: None"; "Status: payment_failed"]
          (Some "sk_test_123")
          [Charge_create 500 "usd" "tok_mastercard" "Charge for John Doe"] 0)
  /\ "payment_failed" <> "failed".
Proof.
  split; [reflexivity|]. split; [reflexivity|]. discriminate.
Qed.

(** ** Refunds *)

Lemma refund_payment_logging_fails
    (self : ISP.PaymentService) (processor : ISP.RefundPaymentProtocol)
    (transaction_id : string) (env : Env) (w w1 : World) (response : PaymentResponse) :
  ISP.refund_payment_processor self = Some processor ->
  ISP.refund_transaction processor transaction_id env w = (Return response, w1) ->
  ISP.refund_payment self transaction_id env w
  = (Raise (arity_error "LogTransaction.log_transaction" 2), w1).
Proof.
  intros Hp Hrun. unfold ISP.refund_payment. rewrite Hp.
  unfold bind at 1. rewrite Hrun. reflexivity.
Qed.

(** C2, what the code does.  Without a refund executor [refund_payment]
    raises its [Exception] and leaves the world as it was.  With the
    gateway-backed executor configured, the refund runs, and the call
    [log_transaction(transaction_id, response)] that follows lacks the
    [charge] argument: [refund_payment] raises a [TypeError] and returns no
    response. *)
Theorem refund_payment_runs :
  forall (processor : ISP.PaymentProcessorProtocol) (notifier : ISP.Notify)
         (recurrence : option ISP.RecurrencePaymentProtocol)
         (transaction_id : string) (env : Env) (w : World),
    ISP.refund_payment (ISP.mk_PaymentService processor notifier None recurrence)
      transaction_id env w
    = (Raise (mk_exn Exception "Refund payment processor not supported"), w)
    /\ ISP.ProcessPayment.refund_transaction transaction_id env w
       = (Return (mk_PaymentResponse "payment_refunded" 0 (Some transaction_id)
                    (Some "Payment refunded successfully")),
          printed w ["Refunding payment"])
    /\ ISP.refund_payment
         (ISP.mk_PaymentService processor notifier (Some ISP.ProcessPayment.as_refund)
            recurrence)
         transaction_id env w
       = (Raise (mk_exn TypeError
                   "LogTransaction.log_transaction() missing 1 required positional argument: 'charge'"),
          printed w ["Refunding payment"]).
Proof.
  intros. split; [reflexivity|]. split; [reflexivity|].
  erewrite refund_payment_logging_fails; reflexivity.
Qed.

(** ** Validation comes first *)

Lemma printed_printed (w : World) (l1 l2 : list string) :
  printed (printed w l1) l2 = printed w (l1 ++ l2)%list.
Proof.
  unfold printed, set_stdout. simpl. now rewrite app_assoc.
Qed.

Lemma customer_validation_message
    (customer_data : CustomerData) (env : Env) (w w' : World) (e : exn) :
  ValidateData.validate_customer_data customer_data env w = (Raise e, w') ->
  In (exn_str e) validation_messages
  /\ e = mk_exn ValueError (exn_str e) /\ w' = printed w [exn_str e].
Proof.
  unfold ValidateData.validate_customer_data, validation_messages.
  destruct (truthy_str (name customer_data)); simpl.
  - destruct (contact_info customer_data) as [c|]; simpl.
    + destruct (truthy_opt_str (email c)); simpl.
      * discriminate.
      * destruct (truthy_opt_str (phone c)); simpl; [discriminate|].
        unfold_py. intros H. inversion H; subst. simpl. auto 6.
    + unfold_py. intros H. inversion H; subst. simpl. auto 6.
  - unfold_py. intros H. inversion H; subst. simpl. auto 6.
Qed.

Lemma payment_validation_message
    (payment_data : PaymentData) (env : Env) (w w' : World) (e : exn) :
  ValidatePaymentData.validate_payment_data payment_data env w = (Raise e, w') ->
  In (exn_str e) validation_messages
  /\ e = mk_exn ValueError (exn_str e) /\ w' = printed w [exn_str e].
Proof.
  unfold ValidatePaymentData.validate_payment_data, validation_messages.
  destruct (negb (truthy_int (amount payment_data))
            || negb (truthy_str (source payment_data))); simpl.
  - unfold_py. intros H. inversion H; subst. simpl. auto 6.
  - discriminate.
Qed.

Lemma validation_message_is_no_notification (msg : string) :
  In msg validation_messages ->
  forall x, msg <> email_line x /\ msg <> sms_line x.
Proof.
  unfold validation_messages, email_line, sms_line.
  intros H x. simpl in H.
  destruct H as [H|[H|[H|[H|[]]]]]; subst msg; split; simpl; discriminate.
Qed.

Lemma diagnostic_is_no_notification (msg : string) :
  forall x, "Error processing payment: " ++ msg <> email_line x
            /\ "Error processing payment: " ++ msg <> sms_line x.
Proof.
  intros x. unfold email_line, sms_line. split; simpl; discriminate.
Qed.

(** The facade's handler on an error of the [try] body. *)
Lemma process_payments_handler
    (A : Type) (body : M A) (env : Env) (w : World) (e : exn) (w' : World) :
  body env w = (Raise e, w') ->
  try_except body Exception
    (fun e => print ("Error processing payment: " ++ exn_str e) ;; raise e) env w
  = (Raise e,
     if isinstance e Exception
     then printed w' ["Error processing payment: " ++ exn_str e]
     else w').
Proof.
  intros Hbody. unfold try_except. rewrite Hbody.
  destruct (isinstance e Exception); reflexivity.
Qed.

(** C4. When customer or payment validation fails, [process_payments] raises
    the validator's [ValueError], whatever charge executor, notifier and
    refund or recurrence executors the service holds.  The world it leaves
    differs from the initial one by two printed lines only, the validator's
    message and the facade's diagnostic: no request went to the gateway, the
    log file has no new line, and neither notification line was printed. *)
Theorem process_payments_validates_first :
  forall (self : ISP.PaymentService) (payment_data : PaymentData)
         (customer_data : CustomerData) (env : Env) (w : World),
    customer_validation_fails customer_data env w
    \/ payment_validation_fails payment_data env w ->
    exists msg w',
      ISP.process_payments self payment_data customer_data env w
      = (Raise (mk_exn ValueError msg), w')
      /\ w' = printed w [msg; "Error processing payment: " ++ msg]
      /\ stripe_calls w' = stripe_calls w
      /\ stripe_api_key w' = stripe_api_key w
      /\ transactions_log w' = transactions_log w
      /\ uuid_draws w' = uuid_draws w
      /\ forall line x,
           In line [msg; "Error processing payment: " ++ msg] ->
           line <> email_line x /\ line <> sms_line x.
Proof.
  intros self pd cd env w Hfails.
  assert (Hraise : exists e w1,
             In (exn_str e) validation_messages
             /\ e = mk_exn ValueError (exn_str e) /\ w1 = printed w [exn_str e]
             /\ (ValidateData.validate_customer_data cd ;;
                 ValidatePaymentData.validate_payment_data pd ;;
                 charge <- ISP.process_transaction (ISP.process_payment self) cd pd ;;
                 ISP.notify_customer (ISP.notify self) cd ;;
                 ISP.LogTransaction.log_transaction
                   [PyCustomer cd; PyPayment pd; PyResponse charge] ;;
                 ret charge) env w = (Raise e, w1)).
  { destruct (validate_customer_data_cases cd env w) as [[_ [m Hm]]|[Hok Hpass]].
    - exists (mk_exn ValueError m), (printed w [m]).
      destruct (customer_validation_message _ _ _ Hm) as (Hin & _ & _).
      repeat split; try assumption.
      unfold bind at 1. rewrite Hm. reflexivity.
    - destruct Hfails as [Hf|[m Hm]].
      + exfalso. exact (customer_validation_exclusive Hf Hpass).
      + exists (mk_exn ValueError m), (printed w [m]).
        destruct (payment_validation_message _ _ _ Hm) as (Hin & _ & _).
        repeat split; try assumption.
        unfold bind at 1. rewrite Hpass. unfold bind at 1. rewrite Hm. reflexivity. }
  destruct Hraise as (e & w1 & Hin & He & Hw1 & Hbody).
  exists (exn_str e), (printed w [exn_str e; "Error processing payment: " ++ exn_str e]).
  split.
  - unfold ISP.process_payments.
    rewrite (@process_payments_handler _ _ _ _ _ _ Hbody).
    rewrite He at 2. unfold isinstance at 1; simpl.
    rewrite Hw1, printed_printed. simpl. now rewrite <- He.
  - repeat split; try reflexivity.
    + destruct H as [H|[H|[]]]; subst line.
      * now apply validation_message_is_no_notification.
      * apply diagnostic_is_no_notification.
    + destruct H as [H|[H|[]]]; subst line.
      * now apply validation_message_is_no_notification.
      * apply diagnostic_is_no_notification.
Qed.

Lemma process_payments_validates_first_witness :
  exists msg w',
    ISP.process_payments ISP.default_service (mk_PaymentData 0 "tok_mastercard")
      customer_data_with_email accepting_env empty_world
    = (Raise (mk_exn ValueError msg), w')
    /\ stripe_calls w' = [] /\ transactions_log w' = [].
Proof.
  destruct (@process_payments_validates_first ISP.default_service
              (mk_PaymentData 0 "tok_mastercard") customer_data_with_email
              accepting_env empty_world)
    as (msg & w' & Hrun & _ & Hcalls & _ & Hlog & _).
  - right. exists "Invalid payment data". reflexivity.
  - exists msg, w'. auto.
Defined.

(** ** Errors pass through the facade *)

Lemma raised_at_stage_body
    (self : ISP.PaymentService) (payment_data : PaymentData) (customer_data : CustomerData)
    (env : Env) (w : World) (e : exn) (w' : World) :
  raised_at_stage self payment_data customer_data env w e w' ->
  (ValidateData.validate_customer_data customer_data ;;
   ValidatePaymentData.validate_payment_data payment_data ;;
   charge <- ISP.process_transaction (ISP.process_payment self) customer_data payment_data ;;
   ISP.notify_customer (ISP.notify self) customer_data ;;
   ISP.LogTransaction.log_transaction
     [PyCustomer customer_data; PyPayment payment_data; PyResponse charge] ;;
   ret charge) env w
  = (Raise e, w').
Proof.
  intros [H1 | w1 H1 H2 | w1 w2 b H1 H2 H3 | w1 w2 w3 b c H1 H2 H3 H4
          | w1 w2 w3 w4 b c H1 H2 H3 H4 H5];
    unfold bind at 1; rewrite H1; try reflexivity;
    unfold bind at 1; rewrite H2; try reflexivity;
    unfold bind at 1; rewrite H3; try reflexivity;
    unfold bind at 1; rewrite H4; try reflexivity;
    unfold bind at 1; rewrite H5; reflexivity.
Qed.

(** C8. Whichever call of the pipeline raises an error [e] (validation of the
    customer or of the payment, charge, notification, logging),
    [process_payments] prints its diagnostic line and raises the same [e]:
    the outcome is never a response.  Errors are the instances of
    [Exception], which is what the facade's handler catches. *)
Theorem process_payments_reraises :
  forall (self : ISP.PaymentService) (payment_data : PaymentData)
         (customer_data : CustomerData) (env : Env) (w : World) (e : exn) (w' : World),
    raised_at_stage self payment_data customer_data env w e w' ->
    isinstance e Exception = true ->
    ISP.process_payments self payment_data customer_data env w
    = (Raise e, printed w' ["Error processing payment: " ++ exn_str e]).
Proof.
  intros self pd cd env w e w' Hstage Hcls.
  unfold ISP.process_payments.
  rewrite (@process_payments_handler _ _ _ _ _ _ (raised_at_stage_body Hstage)).
  now rewrite Hcls.
Qed.

(** An exception that is no [Exception] instance is not caught: it passes
    through just the same, without the diagnostic. *)
Lemma process_payments_lets_base_exceptions_through
    (self : ISP.PaymentService) (payment_data : PaymentData) (customer_data : CustomerData)
    (env : Env) (w : World) (e : exn) (w' : World) :
  raised_at_stage self payment_data customer_data env w e w' ->
  isinstance e Exception = false ->
  ISP.process_payments self payment_data customer_data env w = (Raise e, w').
Proof.
  intros Hstage Hcls.
  unfold ISP.process_payments.
  rewrite (@process_payments_handler _ _ _ _ _ _ (raised_at_stage_body Hstage)).
  now rewrite Hcls.
Qed.

Lemma process_payments_reraises_witness :
  ISP.process_payments ISP.default_service payment_data_500 customer_data_with_email
    read_only_env empty_world
  = (Raise permission_denied,
     mk_World ["Payment successful"; "Email sent to example@mail.com";
               "Error processing payment: [Errno 13] Permission denied: 'transactions.log'"]
       [] (Some "sk_test_123")
       [Charge_create 500 "usd" "tok_mastercard" "Charge for John Doe"] 0).
Proof.
  apply (@process_payments_reraises ISP.default_service payment_data_500
           customer_data_with_email read_only_env empty_world permission_denied
           (mk_World ["Payment successful"; "Email sent to example@mail.com"]
              [] (Some "sk_test_123")
              [Charge_create 500 "usd" "tok_mastercard" "Charge for John Doe"] 0)).
  - eapply raised_logging; reflexivity.
  - reflexivity.
Defined.

(** * Further properties of the code *)

(** ** The charge pipeline when nothing fails *)








(** ** The two gateway-backed charge executors *)

Lemma liskov_process_transaction_outcomes
    (customer_data : CustomerData) (payment_data : PaymentData) (env : Env) (w : World) :
  Liskov.ProcessPayment.process_transaction customer_data payment_data env w
  = match gw_Charge_create env (keyed env w) (amount payment_data) "usd"
            (source payment_data) ("Charge for " ++ name customer_data) with
    | Return charge =>
        (Return charge,
         printed (sent (keyed env w) (charge_call customer_data payment_data))
           ["Payment successful"])
    | Raise e =>
        (Raise e,
         if isinstance e StripeError
         then printed (sent (keyed env w) (charge_call customer_data payment_data))
                ["Payment failed: " ++ exn_str e]
         else sent (keyed env w) (charge_call customer_data payment_data))
    end.
Proof.
  unfold Liskov.ProcessPayment.process_transaction. unfold_py.
  fold (keyed env w).
  destruct (gw_Charge_create env (keyed env w) (amount payment_data) "usd"
              (source payment_data) ("Charge for " ++ name customer_data)) as [c|e];
    [reflexivity|].
  destruct (isinstance e StripeError); reflexivity.
Qed.

Lemma isp_process_transaction_outcomes
    (customer_data : CustomerData) (payment_data : PaymentData) (env : Env) (w : World) :
  ISP.ProcessPayment.process_transaction customer_data payment_data env w
  = match gw_Charge_create env (keyed env w) (amount payment_data) "usd"
            (source payment_data) ("Charge for " ++ name customer_data) with
    | Return charge =>
        (Return (response_of_charge charge),
         printed (sent (keyed env w) (charge_call customer_data payment_data))
           ["Payment successful"])
    | Raise e =>
        if isinstance e StripeError
        then (Return (failed_response e),
              printed (sent (keyed env w) (charge_call customer_data payment_data))
                ["Payment failed: " ++ exn_str e])
        else (Raise e, sent (keyed env w) (charge_call customer_data payment_data))
    end.
Proof.
  unfold ISP.ProcessPayment.process_transaction. unfold_py.
  fold (keyed env w).
  destruct (gw_Charge_create env (keyed env w) (amount payment_data) "usd"
              (source payment_data) ("Charge for " ++ name customer_data)) as [c|e];
    [reflexivity|].
  destruct (isinstance e StripeError); reflexivity.
Qed.

(** X3. The ISP charge executor is the Liskov one with its result wrapped:
    on every input both leave the same world; a charge the Liskov executor
    returns becomes the response with the charge's status, amount and
    identifier; a [StripeError] it raises becomes the failed response; any
    other exception is raised by both. *)
Theorem isp_executor_wraps_liskov_executor :
  forall (customer_data : CustomerData) (payment_data : PaymentData) (env : Env) (w : World),
    ISP.ProcessPayment.process_transaction customer_data payment_data env w
    = match Liskov.ProcessPayment.process_transaction customer_data payment_data env w with
      | (Return charge, w') => (Return (response_of_charge charge), w')
      | (Raise e, w') =>
          if isinstance e StripeError
          then (Return (failed_response e), w')
          else (Raise e, w')
      end.
Proof.
  intros cd pd env w.
  rewrite isp_process_transaction_outcomes, liskov_process_transaction_outcomes.
  destruct (gw_Charge_create env (keyed env w) (amount pd) "usd" (source pd)
              ("Charge for " ++ name cd)) as [c|e]; [reflexivity|].
  destruct (isinstance e StripeError); reflexivity.
Qed.

(** X4. Whatever the gateway answers, the ISP charge executor sends exactly
    one request (the charge of the requested amount in ["usd"], described
    as ["Charge for "] and the customer's name), sets [stripe.api_key] from
    [STRIPE_SECRET_KEY], leaves the log file alone, and never raises a
    [StripeError]; a response with another status than ["payment_failed"]
    carries the success message. *)
Theorem isp_process_transaction_contains_gateway_errors :
  forall (customer_data : CustomerData) (payment_data : PaymentData) (env : Env) (w : World),
    let result := ISP.ProcessPayment.process_transaction customer_data payment_data env w in
    stripe_calls (snd result)
    = List.app (stripe_calls w)
        [Charge_create (amount payment_data) "usd" (source payment_data)
           ("Charge for " ++ name customer_data)]
    /\ stripe_api_key (snd result) = getenv env "STRIPE_SECRET_KEY"
    /\ transactions_log (snd result) = transactions_log w
    /\ match fst result with
       | Raise e => isinstance e StripeError = false
       | Return response =>
           (status response = "payment_failed" /\ response_amount response = 0%Z
            /\ response_id response = None)
           \/ message response = Some "Payment successful"
       end.
Proof.
  intros cd pd env w result. subst result.
  rewrite isp_process_transaction_outcomes.
  destruct (gw_Charge_create env (keyed env w) (amount pd) "usd" (source pd)
              ("Charge for " ++ name cd)) as [c|e].
  - simpl. repeat split. now right.
  - destruct (isinstance e StripeError) eqn:Hcls; simpl; repeat split.
    + left. repeat split.
    + exact Hcls.
Qed.

(** ** Recurrence setup: failures and edges *)

Ltac case_gateway :=
  repeat (simpl;
          match goal with
          | |- context [gw_Customer_create ?env ?w ?a] =>
              destruct (gw_Customer_create env w a)
          | |- context [gw_PaymentMethod_attach ?env ?w ?a ?b] =>
              destruct (gw_PaymentMethod_attach env w a b)
          | |- context [gw_Customer_modify ?env ?w ?a ?b] =>
              destruct (gw_Customer_modify env w a b)
          | |- context [gw_Subscription_create ?env ?w ?a ?b] =>
              destruct (gw_Subscription_create env w a b)
          | |- context [isinstance ?e StripeError] =>
              let H := fresh "Hcls" in destruct (isinstance e StripeError) eqn:H
          | |- context [subscription_items ?s] =>
              destruct (subscription_items s)
          end).

(** X5. Whatever the gateway answers, [setup_recurrence] leaves the log
    file alone, sets [stripe.api_key] from [STRIPE_SECRET_KEY], and never
    raises a [StripeError]: a response it returns is either the failed one
    (status ["recurrence_payment_failed"], amount [0], no identifier) or
    carries the success message and an identifier. *)
Theorem setup_recurrence_contains_gateway_errors :
  forall (customer_data : CustomerData) (payment_data : PaymentData) (env : Env) (w : World),
    let result := ISP.ProcessPayment.setup_recurrence customer_data payment_data env w in
    transactions_log (snd result) = transactions_log w
    /\ stripe_api_key (snd result) = getenv env "STRIPE_SECRET_KEY"
    /\ match fst result with
       | Raise e => isinstance e StripeError = false
       | Return response =>
           (status response = "recurrence_payment_failed"
            /\ response_amount response = 0%Z /\ response_id response = None)
           \/ (message response = Some "Recurrence payment successful"
               /\ exists i, response_id response = Some i)
       end.
Proof.
  intros cd pd env w result. subst result.
  unfold ISP.ProcessPayment.setup_recurrence,
    ISP.ProcessPayment.__attach_payment_method,
    ISP.ProcessPayment.__set_default_payment_method,
    ISP.ProcessPayment.first_unit_amount, contact_email.
  unfold_py.
  destruct (contact_info cd) as [contact|].
  - case_gateway; simpl; repeat split; try assumption;
      solve [ left; repeat split
            | right; split; [reflexivity | eexists; reflexivity]
            | unfold isinstance in *; simpl in *; congruence ].
  - simpl. repeat split.
Qed.

(** X6. When the gateway has created the customer and then rejects the
    payment method with a [StripeError], [setup_recurrence] returns the failed
    response with the error's text, and stops there: the requests sent are
    the customer creation and the attachment, and no default is set and no
    subscription is asked for.  The customer created at the gateway stays. *)
Theorem setup_recurrence_stops_at_rejected_payment_method :
  forall (customer_data : CustomerData) (payment_data : PaymentData) (env : Env) (w : World)
         (contact : ContactInfo) (customer : Customer) (e : exn),
    contact_info customer_data = Some contact ->
    gw_Customer_create env (keyed env w) (email contact) = Return customer ->
    gw_PaymentMethod_attach env (recurrence_world1 env w contact)
      (source payment_data) (customer_id customer) = Raise e ->
    isinstance e StripeError = true ->
    exists w',
      ISP.ProcessPayment.setup_recurrence customer_data payment_data env w
      = (Return (failed_recurrence_response e), w')
      /\ stripe_calls w'
         = List.app (stripe_calls w)
             [Customer_create (email contact);
              PaymentMethod_attach (source payment_data) (customer_id customer)]
      /\ stdout w' = List.app (stdout w) ["Recurrence payment failed: " ++ exn_str e].
Proof.
  intros cd pd env w contact customer e Hc Hcust Hattach Hcls.
  unfold recurrence_world1 in Hattach.
  unfold ISP.ProcessPayment.setup_recurrence,
    ISP.ProcessPayment.__attach_payment_method,
    ISP.ProcessPayment.__set_default_payment_method, contact_email.
  unfold_py. rewrite Hc.
  fold (keyed env w). rewrite Hcust, Hattach, Hcls.
  eexists. split; [reflexivity|]. simpl. split; [|reflexivity].
  now rewrite <- app_assoc.
Qed.

Lemma setup_recurrence_stops_at_rejected_payment_method_witness :
  exists w',
    ISP.ProcessPayment.setup_recurrence customer_data_with_email payment_data_500
      attach_rejecting_env empty_world
    = (Return (failed_recurrence_response invalid_payment_method), w')
    /\ stripe_calls w'
       = [Customer_create (Some "example@mail.com");
          PaymentMethod_attach "tok_mastercard" "cus_1"].
Proof.
  destruct (@setup_recurrence_stops_at_rejected_payment_method customer_data_with_email
              payment_data_500 attach_rejecting_env empty_world
              (mk_ContactInfo (Some "example@mail.com") None) (mk_Customer "cus_1")
              invalid_payment_method eq_refl eq_refl eq_refl eq_refl)
    as (w' & Hrun & Hcalls & _).
  exists w'. split; [exact Hrun | exact Hcalls].
Defined.

(** X7. When the gateway accepts all four operations and the subscription
    comes back without items, [setup_recurrence] has already printed its
    success message when reading the first item fails: it raises an
    [IndexError], which its handler for [StripeError] does not catch, and the
    subscription stays created at the gateway. *)
Theorem setup_recurrence_without_items_raises :
  forall (customer_data : CustomerData) (payment_data : PaymentData) (env : Env) (w : World)
         (contact : ContactInfo) (customer : Customer) (payment_method : PaymentMethod)
         (subscription : Subscription),
    let price_id := getenv env "STRIPE_PRICE_ID" in
    let w1 := keyed env w in
    let w2 := sent w1 (Customer_create (email contact)) in
    let w3 := sent w2 (PaymentMethod_attach (source payment_data) (customer_id customer)) in
    let w4 := sent w3 (Customer_modify (customer_id customer)
                         (payment_method_id payment_method)) in
    let w5 := sent w4 (Subscription_create (customer_id customer) price_id) in
    contact_info customer_data = Some contact ->
    gw_Customer_create env w1 (email contact) = Return customer ->
    gw_PaymentMethod_attach env w2 (source payment_data) (customer_id customer)
    = Return payment_method ->
    gw_Customer_modify env w3 (customer_id customer) (payment_method_id payment_method)
    = Return tt ->
    gw_Subscription_create env w4 (customer_id customer) price_id = Return subscription ->
    subscription_items subscription = [] ->
    ISP.ProcessPayment.setup_recurrence customer_data payment_data env w
    = (Raise (mk_exn IndexError "list index out of range"),
       printed w5 ["Recurrence payment successful"]).
Proof.
  intros cd pd env w contact customer pm sub price_id w1 w2 w3 w4 w5
    Hc Hcust Hpm Hmod Hsub Hitems.
  unfold ISP.ProcessPayment.setup_recurrence,
    ISP.ProcessPayment.__attach_payment_method,
    ISP.ProcessPayment.__set_default_payment_method,
    ISP.ProcessPayment.first_unit_amount, contact_email.
  unfold_py. rewrite Hc.
  fold (keyed env w). fold w1. rewrite Hcust.
  fold w2. rewrite Hpm.
  fold w3. rewrite Hmod.
  fold w4. fold price_id. rewrite Hsub.
  rewrite Hitems. reflexivity.
Qed.

Lemma setup_recurrence_without_items_raises_witness :
  ISP.ProcessPayment.setup_recurrence customer_data_with_email payment_data_500
    itemless_env empty_world
  = (Raise (mk_exn IndexError "list index out of range"),
     mk_World ["Recurrence payment successful"] [] (Some "sk_test_123")
       [Customer_create (Some "example@mail.com");
        PaymentMethod_attach "tok_mastercard" "cus_1";
        Customer_modify "cus_1" "tok_mastercard";
        Subscription_create "cus_1" (Some "price_123")] 0).
Proof.
  apply (@setup_recurrence_without_items_raises customer_data_with_email payment_data_500
           itemless_env empty_world
           (mk_ContactInfo (Some "example@mail.com") None)
           (mk_Customer "cus_1") (mk_PaymentMethod "tok_mastercard")
           (mk_Subscription "incomplete" "sub_1" []));
    reflexivity.
Defined.

(** ** The recurrence use case of the facade *)



(** X9. [setup_recurrence_payment] has no handler of its own.  Without a
    recurrence executor it raises its [Exception] and the world is as before;
    an exception of the executor, or of opening the log file after the
    executor has returned, comes out as it is, in the world where it was
    raised: no diagnostic is printed and no log line is written. *)
Theorem setup_recurrence_payment_propagates :
  forall (self : ISP.PaymentService) (payment_data : PaymentData)
         (customer_data : CustomerData) (env : Env) (w : World),
    (ISP.recurrence_payment_processor self = None ->
     ISP.setup_recurrence_payment self payment_data customer_data env w
     = (Raise (mk_exn Exception "Recurrence payment processor not supported"), w))
    /\ (forall processor e w1,
          ISP.recurrence_payment_processor self = Some processor ->
          ISP.setup_recurrence processor customer_data payment_data env w = (Raise e, w1) ->
          ISP.setup_recurrence_payment self payment_data customer_data env w
          = (Raise e, w1))
    /\ (forall processor response e w1,
          ISP.recurrence_payment_processor self = Some processor ->
          ISP.setup_recurrence processor customer_data payment_data env w
          = (Return response, w1) ->
          open_append env w1 = Some e ->
          ISP.setup_recurrence_payment self payment_data customer_data env w
          = (Raise e, w1)).
Proof.
  intros self pd cd env w. unfold ISP.setup_recurrence_payment.
  split; [|split].
  - intros ->. reflexivity.
  - intros processor e w1 -> Hrun. unfold bind at 1. now rewrite Hrun.
  - intros processor r e w1 -> Hrun Hopen.
    unfold bind at 1. rewrite Hrun. unfold bind at 1.
    unfold ISP.LogTransaction.log_transaction, with_open_append.
    now rewrite Hopen.
Qed.

Lemma setup_recurrence_payment_propagates_witness :
  ISP.setup_recurrence_payment ISP.default_service payment_data_500 customer_data_with_email
    accepting_env empty_world
  = (Raise (mk_exn Exception "Recurrence payment processor not supported"), empty_world)
  /\ ISP.setup_recurrence_payment
       (ISP.mk_PaymentService ISP.ProcessPayment.as_processor ISP.EmailNotify.new
          None (Some ISP.ProcessPayment.as_recurrence))
       payment_data_500 customer_data_with_email itemless_env empty_world
     = (Raise (mk_exn IndexError "list index out of range"),
        mk_World ["Recurrence payment successful"] [] (Some "sk_test_123")
          [Customer_create (Some "example@mail.com");
           PaymentMethod_attach "tok_mastercard" "cus_1";
           Customer_modify "cus_1" "tok_mastercard";
           Subscription_create "cus_1" (Some "price_123")] 0).
Proof.
  split.
  - apply (@setup_recurrence_payment_propagates ISP.default_service payment_data_500
             customer_data_with_email accepting_env empty_world).
    reflexivity.
  - apply (proj1 (proj2 (@setup_recurrence_payment_propagates
             (ISP.mk_PaymentService ISP.ProcessPayment.as_processor ISP.EmailNotify.new
                None (Some ISP.ProcessPayment.as_recurrence))
             payment_data_500 customer_data_with_email itemless_env empty_world))
           ISP.ProcessPayment.as_recurrence); reflexivity.
Defined.

(** ** The transaction logger *)


(** ** Executors that return no response *)


(** X12. An [OffLinePaymentProcessor] given to the facade as its charge
    executor answers [process_transaction] with [None].  On validated input,
    once the notifier has returned and the log file has opened, the logger
    writes its first line and fails on [charge.id]: the facade prints its
    diagnostic and raises an [AttributeError], the customer has been
    notified, and the log file keeps the line of a payment that has no
    identifier and no status. *)
Theorem offline_executor_breaks_the_facade :
  forall (notifier : ISP.Notify) (payment_data : PaymentData) (customer_data : CustomerData)
         (env : Env) (w w_notified : World),
    ~ invalid_customer customer_data ->
    ~ invalid_payment payment_data ->
    ISP.notify_customer notifier customer_data env w = (Return tt, w_notified) ->
    open_append env w_notified = None ->
    Untyped.process_payments Untyped.OffLinePaymentProcessor.new notifier
      payment_data customer_data env w
    = (Raise (mk_exn AttributeError "'NoneType' object has no attribute 'id'"),
       printed
         (logged w_notified
            [name customer_data ++ " paid " ++ str_int (amount payment_data)])
         ["Error processing payment: 'NoneType' object has no attribute 'id'"]).
Proof.
  intros nt pd cd env w w3 Hc Hp Hnotify Hopen.
  destruct (validation_passes_run env w Hc Hp) as [Hvc Hvp].
  unfold Untyped.process_payments, try_except.
  unfold bind at 1. rewrite Hvc.
  unfold bind at 1. rewrite Hvp.
  unfold bind at 1. simpl.
  unfold bind at 1. rewrite Hnotify.
  unfold ISP.LogTransaction.log_transaction. unfold_py. rewrite Hopen.
  reflexivity.
Qed.

Lemma offline_executor_breaks_the_facade_witness :
  Untyped.process_payments Untyped.OffLinePaymentProcessor.new ISP.EmailNotify.new
    payment_data_500 customer_data_with_email accepting_env empty_world
  = (Raise (mk_exn AttributeError "'NoneType' object has no attribute 'id'"),
     mk_World ["Email sent to example@mail.com";
               "Error processing payment: 'NoneType' object has no attribute 'id'"]
       ["John Doe paid 500"] None [] 0).
Proof.
  apply (@offline_executor_breaks_the_facade ISP.EmailNotify.new payment_data_500
           customer_data_with_email accepting_env empty_world
           (mk_World ["Email sent to example@mail.com"] [] None [] 0)
           customer_data_with_email_is_valid payment_data_500_is_valid);
    reflexivity.
Defined.

(** ** Notifiers *)

Lemma valid_customer_has_channel (customer_data : CustomerData) :
  ~ invalid_customer customer_data ->
  exists contact,
    contact_info customer_data = Some contact
    /\ (truthy_opt_str (email contact) = false -> truthy_opt_str (phone contact) = true).
Proof.
  intros Hvalid. destruct (contact_info customer_data) as [c|] eqn:Hc.
  - exists c. split; [reflexivity|]. intros He.
    destruct (truthy_opt_str (phone c)) eqn:Hp; [reflexivity|].
    exfalso. apply Hvalid. right; right. exists c.
    repeat split; [assumption | now apply truthy_opt_str_false..].
  - exfalso. apply Hvalid. right. now left.
Qed.



(** X14. The default notifier of the ISP facade does not look at the email
    address: for a customer who passes validation with a phone number and no
    email address, it returns after printing ["Email sent to None"]. *)
Theorem email_notifier_ignores_missing_email :
  forall (customer_data : CustomerData) (contact : ContactInfo) (phone_number : string)
         (env : Env) (w : World),
    name customer_data <> "" ->
    contact_info customer_data = Some contact ->
    email contact = None ->
    phone contact = Some phone_number ->
    phone_number <> "" ->
    customer_validation_passes customer_data env w
    /\ ISP.notify_customer (ISP.notify ISP.default_service) customer_data env w
       = (Return tt, printed w ["Email sent to None"]).
Proof.
  intros cd c p env w Hn Hc He Hp Hnp. split.
  - destruct (validate_customer_data_cases cd env w) as [[Hinv _]|[_ Hpass]];
      [exfalso | exact Hpass].
    destruct Hinv as [H|[H|(c' & Hc' & _ & [H|H])]]; congruence.
  - simpl. unfold ISP.EmailNotify.notify_customer, contact_email, bind.
    rewrite Hc. simpl. rewrite He. reflexivity.
Qed.

Lemma email_notifier_ignores_missing_email_witness :
  customer_validation_passes customer_data_with_phone accepting_env empty_world
  /\ ISP.notify_customer (ISP.notify ISP.default_service) customer_data_with_phone
       accepting_env empty_world
     = (Return tt, printed empty_world ["Email sent to None"]).
Proof.
  apply (@email_notifier_ignores_missing_email customer_data_with_phone
           (mk_ContactInfo None (Some "1234567890")) "1234567890"
           accepting_env empty_world);
    solve [reflexivity | discriminate].
Defined.

(** ** The open/closed facade and the Liskov facade *)

Lemma liskov_facade_depends_on_notification_only
    (processor : Liskov.PaymentProcessor) (n1 n2 : Liskov.Notify)
    (payment_data : PaymentData) (customer_data : CustomerData) (env : Env) (w : World) :
  ((exists e w', ValidateData.validate_customer_data customer_data env w = (Raise e, w'))
   \/ forall w', Liskov.notify_customer n1 customer_data env w'
                 = Liskov.notify_customer n2 customer_data env w') ->
  Liskov.process_payments (Liskov.mk_PaymentService processor n1)
    payment_data customer_data env w
  = Liskov.process_payments (Liskov.mk_PaymentService processor n2)
      payment_data customer_data env w.
Proof.
  intros H.
  unfold Liskov.process_payments, try_except, bind, ret.
  cbv beta iota delta [Liskov.process_payment Liskov.notify].
  destruct H as [(e & w' & Hraise)|Hsame].
  - rewrite Hraise. reflexivity.
  - destruct (ValidateData.validate_customer_data customer_data env w) as [[[]|e] w1];
      cbv beta iota; [|reflexivity].
    destruct (ValidatePaymentData.validate_payment_data payment_data env w1)
      as [[b|e] w2]; cbv beta iota; [|reflexivity].
    destruct (Liskov.process_transaction processor customer_data payment_data env w2)
      as [[c|e] w3]; cbv beta iota; [|reflexivity].
    rewrite (Hsame w3). reflexivity.
Qed.

(** X15. The facade of the open/closed variant is the Liskov facade with the
    notifier that fits the customer: on every input it does what the Liskov
    facade does with [EmailNotify] when the customer has an email address,
    and with [SMSNotify] when the customer has none. *)
Theorem openclose_facade_is_liskov_facade :
  forall (payment_data : PaymentData) (customer_data : CustomerData) (env : Env) (w : World),
    OpenClose.process_payments payment_data customer_data env w
    = Liskov.process_payments
        (Liskov.mk_PaymentService Liskov.ProcessPayment.new (chosen_notifier customer_data))
        payment_data customer_data env w.
Proof.
  intros pd cd env w.
  change (OpenClose.process_payments pd cd env w)
    with (Liskov.process_payments
            (Liskov.mk_PaymentService Liskov.ProcessPayment.new
               (Liskov.mk_Notify OpenClose.NotifyCustomer.notify_customer))
            pd cd env w).
  apply liskov_facade_depends_on_notification_only.
  destruct (validate_customer_data_cases cd env w) as [[_ [msg Hfail]]|[Hvalid _]].
  - left. eauto.
  - right. intros w'.
    destruct (valid_customer_has_channel Hvalid) as (c & Hc & Hchannel).
    unfold chosen_notifier. rewrite Hc. simpl.
    unfold OpenClose.NotifyCustomer.notify_customer, contact_email, contact_phone, bind.
    rewrite Hc. simpl.
    destruct (truthy_opt_str (email c)) eqn:He; simpl.
    + unfold Liskov.EmailNotify.notify_customer, contact_email, bind.
      rewrite Hc. reflexivity.
    + rewrite (Hchannel eq_refl).
      unfold Liskov.SMSNotify.notify_customer, contact_phone, bind.
      rewrite Hc. reflexivity.
Qed.

(** ** The order of the checks *)

(** X16. A customer without a name is reported as such, whatever else is
    wrong with the customer or the payment and whatever collaborators the
    service holds: the ISP facade raises the [ValueError] of the missing
    name, after the validator's message and its own diagnostic. *)
Theorem process_payments_reports_missing_name_first :
  forall (self : ISP.PaymentService) (payment_data : PaymentData)
         (customer_data : CustomerData) (env : Env) (w : World),
    name customer_data = "" ->
    ISP.process_payments self payment_data customer_data env w
    = (Raise (mk_exn ValueError "Invalid customer data: missing name"),
       printed w ["Invalid customer data: missing name";
                  "Error processing payment: Invalid customer data: missing name"]).
Proof.
  intros self pd cd env w Hname.
  unfold ISP.process_payments, try_except.
  unfold bind at 1.
  unfold ValidateData.validate_customer_data. rewrite Hname. simpl.
  unfold bind, print, raise, printed, set_stdout. simpl. now rewrite <- app_assoc.
Qed.

Lemma process_payments_reports_missing_name_first_witness :
  ISP.process_payments ISP.default_service (mk_PaymentData 0 "") customer_data_without_name
    accepting_env empty_world
  = (Raise (mk_exn ValueError "Invalid customer data: missing name"),
     printed empty_world
       ["Invalid customer data: missing name";
        "Error processing payment: Invalid customer data: missing name"]).
Proof.
  apply (@process_payments_reports_missing_name_first ISP.default_service
           (mk_PaymentData 0 "") customer_data_without_name accepting_env empty_world).
  reflexivity.
Defined.

(** ** Refunds never complete *)

